(** * cryptofeed/standards.py: normalisation of trading pairs, channel
      names, order options and timestamps across exchanges

    A shallow embedding of [src/cryptofeed/standards.py].  The two
    module-level dictionaries [_std_trading_pairs] and [_exchange_to_std]
    are threaded explicitly as a [registry]; Python exceptions are the
    [Raise] branch of [result]; the error log of [feed_to_exchange] is the
    list of records the call emits. *)

From Stdlib Require Import ZArith String Ascii List.
From Stdlib Require Import Floats.PrimFloat Floats.SpecFloat Floats.FloatOps.
From stdpp Require Import gmap strings list fin_maps.

Open Scope string_scope.

(** ** Python values, exceptions and results *)

(** The values the tables hold and the functions pass around: channel
    names are strings or integer codes, order options are strings or small
    dictionaries, timestamps are integers, floats or strings. *)
#[warnings="-register-all"] Inductive pyval : Type :=
| PyNone
| PyStr (s : string)
| PyInt (z : Z)
| PyFloat (f : float)
| PyDict (items : list (string * pyval)).

(** The exceptions raised by the module (the three of
    [cryptofeed.exceptions], with their message where they carry one) and
    the built-in ones its expressions can raise. *)
Inductive exn : Type :=
| UnsupportedTradingPair (msg : string)
| UnsupportedDataFeed (msg : string)
| UnsupportedTradingOption
| KeyError (key : string)
| IndexError
| TypeError
| OverflowError.

Inductive result (A : Type) : Type :=
| Ok (a : A)
| Raise (e : exn).
Arguments Ok {A} a.
Arguments Raise {A} e.

(** Sequencing: an exception raised by the first computation ends the
    function that runs it. *)
#[global] Instance result_ret : MRet result := λ A a, Ok a.
#[global] Instance result_bind : MBind result := λ A B k r,
  match r with
  | Ok a => k a
  | Raise e => Raise e
  end.

(** [try: body except KeyError: handler]. *)
Definition try_except_KeyError {A : Type} (body handler : result A) : result A :=
  match body with
  | Raise (KeyError _) => handler
  | other => other
  end.

(** [d[k]] and [k in d] on a dictionary with string keys. *)
Definition dict_getitem {V : Type} (d : gmap string V) (k : string) : result V :=
  match d !! k with
  | Some v => Ok v
  | None => Raise (KeyError k)
  end.

Definition dict_contains {V : Type} (d : gmap string V) (k : string) : bool :=
  bool_decide (is_Some (d !! k)).

(** A dictionary display [{k1: v1, ..., kn: vn}]: the items are inserted
    from left to right, a repeated key keeps its last value. *)
Definition dict_display {V : Type} (items : list (string * V)) : gmap string V :=
  foldl (λ d kv, <[kv.1 := kv.2]> d) ∅ items.

(** [sub in s] on strings: [sub] occurs in [s] as a substring. *)
Fixpoint str_in (sub s : string) : bool :=
  String.prefix sub s ||
  match s with
  | EmptyString => false
  | String _ rest => str_in sub rest
  end.

(** [s[0]] raises [IndexError] on the empty string; [s[1:]] never raises. *)
Definition str_item0 (s : string) : result ascii :=
  match s with
  | EmptyString => Raise IndexError
  | String c _ => Ok c
  end.

Definition str_slice_from1 (s : string) : string :=
  match s with
  | EmptyString => EmptyString
  | String _ rest => rest
  end.

(** [v == s] for a string [s]: only a string with the same characters is
    equal to it. *)
Definition py_eq_str (v : pyval) (s : string) : bool :=
  match v with
  | PyStr t => String.eqb t s
  | _ => false
  end.

(** [float(z)] for an integer: the nearest binary64 value, ties to even;
    [OverflowError] when the integer is too large. *)
Definition py_int_to_float (z : Z) : result float :=
  match binary_normalize prec emax z 0 false with
  | S754_infinity _ => Raise OverflowError
  | sf => Ok (SF2Prim sf)
  end.

(** [ts / d] for a float constant [d] different from zero. *)
Definition py_truediv_float (ts : pyval) (d : float) : result pyval :=
  match ts with
  | PyFloat f => Ok (PyFloat (f / d)%float)
  | PyInt z => f ← py_int_to_float z; Ok (PyFloat (f / d)%float)
  | _ => Raise TypeError
  end.

(** ** Constants of cryptofeed.defines *)

(** Modelled from the spec: the module [cryptofeed.defines] is not among
    the sources.  The spec writes the exchange identifiers as their
    upper-case names (["BINANCE"], ["COINBASE"], ["KRAKEN"], ["GEMINI"],
    ["BITFINEX"]) and the order options as ["limit"] and ["market"]; the
    remaining constants follow the same convention.  What the development
    uses of them is that they are pairwise distinct strings. *)
Definition BINANCE := "BINANCE".
Definition BINANCE_FUTURES := "BINANCE_FUTURES".
Definition BINANCE_DELIVERY := "BINANCE_DELIVERY".
Definition BINANCE_US := "BINANCE_US".
Definition BITCOINCOM := "BITCOINCOM".
Definition BITFINEX := "BITFINEX".
Definition BITMAX := "BITMAX".
Definition BITMEX := "BITMEX".
Definition BITSTAMP := "BITSTAMP".
Definition BITTREX := "BITTREX".
Definition BLOCKCHAIN := "BLOCKCHAIN".
Definition BYBIT := "BYBIT".
Definition COINBASE := "COINBASE".
Definition COINBENE := "COINBENE".
Definition DERIBIT := "DERIBIT".
Definition EXX := "EXX".
Definition FTX := "FTX".
Definition FTX_US := "FTX_US".
Definition GATEIO := "GATEIO".
Definition GEMINI := "GEMINI".
Definition HITBTC := "HITBTC".
Definition HUOBI := "HUOBI".
Definition HUOBI_DM := "HUOBI_DM".
Definition HUOBI_SWAP := "HUOBI_SWAP".
Definition KRAKEN := "KRAKEN".
Definition KRAKEN_FUTURES := "KRAKEN_FUTURES".
Definition OKCOIN := "OKCOIN".
Definition OKEX := "OKEX".
Definition POLONIEX := "POLONIEX".
Definition PROBIT := "PROBIT".
Definition UPBIT := "UPBIT".

Definition L2_BOOK := "l2_book".
Definition L3_BOOK := "l3_book".
Definition TRADES := "trades".
Definition TICKER := "ticker".
Definition VOLUME := "volume".
Definition FUNDING := "funding".
Definition OPEN_INTEREST := "open_interest".
Definition LIQUIDATIONS := "liquidations".
Definition FUTURES_INDEX := "futures_index".

Definition LIMIT := "limit".
Definition MARKET := "market".
Definition FILL_OR_KILL := "fill-or-kill".
Definition IMMEDIATE_OR_CANCEL := "immediate-or-cancel".
Definition MAKER_OR_CANCEL := "maker-or-cancel".

Definition UNSUPPORTED := "unsupported".

(** ** The symbol registry *)

(** The two module-level dictionaries: [_std_trading_pairs] maps a
    standard symbol to a dictionary from exchange to native symbol,
    [_exchange_to_std] maps a native symbol to its standard symbol. *)
Record registry : Type := Registry {
  _std_trading_pairs : gmap string (gmap string string);
  _exchange_to_std : gmap string string
}.

Definition empty_registry : registry := Registry ∅ ∅.

(** The exchanges that validate trading pairs themselves:
    [{BITMEX, DERIBIT, KRAKEN_FUTURES}]. *)
Definition exempt : list string := [BITMEX; DERIBIT; KRAKEN_FUTURES].

(** One iteration of the loop of [load_exchange_pair_mapping]. *)
Definition load_step (exchange : string) (reg : registry) (item : string * string) : registry :=
  let '(std, exch) := item in
  {| _exchange_to_std := <[exch := std]> (_exchange_to_std reg);
     _std_trading_pairs :=
       match _std_trading_pairs reg !! std with
       | Some sub => <[std := <[exchange := exch]> sub]> (_std_trading_pairs reg)
       | None => <[std := {[exchange := exch]}]> (_std_trading_pairs reg)
       end |}.

Definition pair_std_to_exchange (reg : registry) (pair exchange : string) : result string :=
  if bool_decide (exchange ∈ exempt) then Ok pair
  else if dict_contains (_std_trading_pairs reg) pair then
    try_except_KeyError
      (sub ← dict_getitem (_std_trading_pairs reg) pair; dict_getitem sub exchange)
      (Raise (UnsupportedTradingPair (pair ++ " is not supported on " ++ exchange)))
  else
    if String.eqb exchange BITFINEX && negb (str_in "-" pair) then Ok ("f" ++ pair)
    else Raise (UnsupportedTradingPair (pair ++ " is not supported on " ++ exchange)).

(** The result is a standard symbol or Python's [None]. *)
Definition pair_exchange_to_std (reg : registry) (pair : string) : result (option string) :=
  if dict_contains (_exchange_to_std reg) pair then
    std ← dict_getitem (_exchange_to_std reg) pair; Ok (Some std)
  else
    c ← str_item0 pair;
    if Ascii.eqb c "f"%char then Ok (Some (str_slice_from1 pair))
    else Ok None.

(** ** The collaborators outside the module *)

Section Collaborators.

(** [gen_pairs] of [cryptofeed.pairs] is not among the sources: it is a
    parameter.  It returns a dictionary from standard symbol to native
    symbol; [gen_pairs exchange] is the list of its items in the order the
    loop [for std, exch in mapping.items()] visits them. *)
Variable gen_pairs : string → list (string * string).

(** [pd.Timestamp(ts).timestamp()] of pandas: a parameter as well. *)
Variable pd_Timestamp_timestamp : pyval → result pyval.

Definition load_exchange_pair_mapping (reg : registry) (exchange : string) : registry :=
  if bool_decide (exchange ∈ exempt) then reg
  else foldl (load_step exchange) reg (gen_pairs exchange).

(** The three sets [timestamp_normalize] tests its exchange against. *)
Definition parsed_class : list string :=
  [BITMEX; COINBASE; HITBTC; OKCOIN; OKEX; FTX; FTX_US; BITCOINCOM; BLOCKCHAIN; PROBIT].

Definition milliseconds_class : list string :=
  [HUOBI; HUOBI_DM; HUOBI_SWAP; BITFINEX; BYBIT; COINBENE; DERIBIT; BINANCE; BINANCE_US;
   BINANCE_FUTURES; BINANCE_DELIVERY; GEMINI; BITTREX; BITMAX; KRAKEN_FUTURES; UPBIT].

Definition microseconds_class : list string := [BITSTAMP].

Definition timestamp_normalize (exchange : string) (ts : pyval) : result pyval :=
  if bool_decide (exchange ∈ parsed_class) then pd_Timestamp_timestamp ts
  else if bool_decide (exchange ∈ milliseconds_class) then py_truediv_float ts 1000.0%float
  else if bool_decide (exchange ∈ microseconds_class) then py_truediv_float ts 1000000.0%float
  else Ok ts.

End Collaborators.

(** ** The static tables *)

Definition _feed_to_exchange_map : gmap string (gmap string pyval) :=
  dict_display [
    (L2_BOOK, dict_display [
      (BITFINEX, PyStr "book-P0-F0-100");
      (POLONIEX, PyStr L2_BOOK);
      (HITBTC, PyStr "subscribeOrderbook");
      (COINBASE, PyStr "level2");
      (BITMEX, PyStr "orderBookL2");
      (BITSTAMP, PyStr "diff_order_book");
      (KRAKEN, PyStr "book");
      (KRAKEN_FUTURES, PyStr "book");
      (BINANCE, PyStr "depth@100ms");
      (BINANCE_US, PyStr "depth@100ms");
      (BINANCE_FUTURES, PyStr "depth@100ms");
      (BINANCE_DELIVERY, PyStr "depth@100ms");
      (BLOCKCHAIN, PyStr "l2");
      (EXX, PyStr "ENTRUST_ADD");
      (HUOBI, PyStr "depth.step0");
      (HUOBI_DM, PyStr "depth.step0");
      (HUOBI_SWAP, PyStr "depth.step0");
      (OKCOIN, PyStr "spot/depth_l2_tbt");
      (OKEX, PyStr "{}/depth_l2_tbt");
      (COINBENE, PyStr L2_BOOK);
      (DERIBIT, PyStr "book");
      (BYBIT, PyStr "orderBookL2_25");
      (FTX, PyStr "orderbook");
      (FTX_US, PyStr "orderbook");
      (GEMINI, PyStr L2_BOOK);
      (BITTREX, PyStr "SubscribeToExchangeDeltas");
      (BITCOINCOM, PyStr "subscribeOrderbook");
      (BITMAX, PyStr L2_BOOK);
      (UPBIT, PyStr L2_BOOK);
      (GATEIO, PyStr "depth.subscribe");
      (PROBIT, PyStr "order_books")]);
    (L3_BOOK, dict_display [
      (BITFINEX, PyStr "book-R0-F0-100");
      (BITSTAMP, PyStr "detail_order_book");
      (HITBTC, PyStr UNSUPPORTED);
      (COINBASE, PyStr "full");
      (BITMEX, PyStr UNSUPPORTED);
      (POLONIEX, PyStr UNSUPPORTED);
      (KRAKEN, PyStr UNSUPPORTED);
      (KRAKEN_FUTURES, PyStr UNSUPPORTED);
      (BINANCE, PyStr UNSUPPORTED);
      (BINANCE_US, PyStr UNSUPPORTED);
      (BINANCE_FUTURES, PyStr UNSUPPORTED);
      (BINANCE_DELIVERY, PyStr UNSUPPORTED);
      (BLOCKCHAIN, PyStr "l3");
      (EXX, PyStr UNSUPPORTED);
      (HUOBI, PyStr UNSUPPORTED);
      (HUOBI_DM, PyStr UNSUPPORTED);
      (OKCOIN, PyStr UNSUPPORTED);
      (OKEX, PyStr UNSUPPORTED);
      (BYBIT, PyStr UNSUPPORTED);
      (FTX, PyStr UNSUPPORTED);
      (FTX_US, PyStr UNSUPPORTED);
      (GEMINI, PyStr UNSUPPORTED);
      (BITCOINCOM, PyStr UNSUPPORTED);
      (BITMAX, PyStr UNSUPPORTED);
      (UPBIT, PyStr UNSUPPORTED);
      (PROBIT, PyStr UNSUPPORTED)]);
    (TRADES, dict_display [
      (POLONIEX, PyStr TRADES);
      (HITBTC, PyStr "subscribeTrades");
      (BITSTAMP, PyStr "live_trades");
      (BITFINEX, PyStr "trades");
      (COINBASE, PyStr "matches");
      (BITMEX, PyStr "trade");
      (KRAKEN, PyStr "trade");
      (KRAKEN_FUTURES, PyStr "trade");
      (BINANCE, PyStr "aggTrade");
      (BINANCE_US, PyStr "aggTrade");
      (BINANCE_FUTURES, PyStr "aggTrade");
      (BINANCE_DELIVERY, PyStr "aggTrade");
      (BLOCKCHAIN, PyStr "trades");
      (EXX, PyStr "TRADE");
      (HUOBI, PyStr "trade.detail");
      (HUOBI_DM, PyStr "trade.detail");
      (HUOBI_SWAP, PyStr "trade.detail");
      (OKCOIN, PyStr "spot/trade");
      (OKEX, PyStr "{}/trade");
      (COINBENE, PyStr TRADES);
      (DERIBIT, PyStr "trades");
      (BYBIT, PyStr "trade");
      (FTX, PyStr "trades");
      (FTX_US, PyStr "trades");
      (GEMINI, PyStr TRADES);
      (BITTREX, PyStr TRADES);
      (BITCOINCOM, PyStr "subscribeTrades");
      (BITMAX, PyStr TRADES);
      (UPBIT, PyStr TRADES);
      (GATEIO, PyStr "trades.subscribe");
      (PROBIT, PyStr "recent_trades")]);
    (TICKER, dict_display [
      (POLONIEX, PyInt 1002);
      (HITBTC, PyStr "subscribeTicker");
      (BITFINEX, PyStr "ticker");
      (BITSTAMP, PyStr UNSUPPORTED);
      (COINBASE, PyStr "ticker");
      (BITMEX, PyStr "quote");
      (KRAKEN, PyStr TICKER);
      (KRAKEN_FUTURES, PyStr "ticker_lite");
      (BINANCE, PyStr "ticker");
      (BINANCE_US, PyStr "ticker");
      (BINANCE_FUTURES, PyStr "ticker");
      (BINANCE_DELIVERY, PyStr "ticker");
      (BLOCKCHAIN, PyStr UNSUPPORTED);
      (HUOBI, PyStr UNSUPPORTED);
      (HUOBI_DM, PyStr UNSUPPORTED);
      (OKCOIN, PyStr "{}/ticker");
      (OKEX, PyStr "{}/ticker");
      (COINBENE, PyStr TICKER);
      (DERIBIT, PyStr "ticker");
      (BYBIT, PyStr UNSUPPORTED);
      (FTX, PyStr "ticker");
      (FTX_US, PyStr "ticker");
      (GEMINI, PyStr UNSUPPORTED);
      (BITTREX, PyStr "SubscribeToSummaryDeltas");
      (BITCOINCOM, PyStr "subscribeTicker");
      (BITMAX, PyStr UNSUPPORTED);
      (UPBIT, PyStr UNSUPPORTED);
      (GATEIO, PyStr UNSUPPORTED);
      (PROBIT, PyStr UNSUPPORTED)]);
    (VOLUME, dict_display [
      (POLONIEX, PyInt 1003)]);
    (FUNDING, dict_display [
      (BITMEX, PyStr "funding");
      (BITFINEX, PyStr "trades");
      (BINANCE_FUTURES, PyStr "markPrice");
      (BINANCE_DELIVERY, PyStr "markPrice");
      (KRAKEN_FUTURES, PyStr "ticker");
      (DERIBIT, PyStr "ticker");
      (OKEX, PyStr "{}/funding_rate");
      (FTX, PyStr "funding");
      (HUOBI_SWAP, PyStr "funding")]);
    (OPEN_INTEREST, dict_display [
      (OKEX, PyStr "{}/ticker");
      (BITMEX, PyStr "instrument");
      (KRAKEN_FUTURES, PyStr "ticker");
      (DERIBIT, PyStr "ticker");
      (FTX, PyStr "open_interest");
      (BINANCE_FUTURES, PyStr "open_interest");
      (BINANCE_DELIVERY, PyStr "open_interest");
      (BYBIT, PyStr "instrument_info.100ms")]);
    (LIQUIDATIONS, dict_display [
      (BITMEX, PyStr "liquidation");
      (BINANCE_FUTURES, PyStr "forceOrder");
      (BINANCE_DELIVERY, PyStr "forceOrder");
      (FTX, PyStr "trades");
      (DERIBIT, PyStr "trades");
      (OKEX, PyStr LIQUIDATIONS)]);
    (FUTURES_INDEX, dict_display [
      (BYBIT, PyStr "instrument_info.100ms")])
  ].

Definition _exchange_options : gmap string (gmap string pyval) :=
  dict_display [
    (LIMIT, dict_display [
      (KRAKEN, PyStr "limit");
      (GEMINI, PyStr "exchange limit");
      (POLONIEX, PyStr "limit");
      (COINBASE, PyStr "limit");
      (BLOCKCHAIN, PyStr "limit")]);
    (MARKET, dict_display [
      (KRAKEN, PyStr "market");
      (GEMINI, PyStr UNSUPPORTED);
      (POLONIEX, PyStr UNSUPPORTED);
      (COINBASE, PyStr "market");
      (BLOCKCHAIN, PyStr "market")]);
    (FILL_OR_KILL, dict_display [
      (GEMINI, PyStr "fill-or-kill");
      (POLONIEX, PyStr "fillOrKill");
      (COINBASE, PyDict [("time_in_force", PyStr "FOK")]);
      (KRAKEN, PyStr UNSUPPORTED);
      (BLOCKCHAIN, PyStr "FOK")]);
    (IMMEDIATE_OR_CANCEL, dict_display [
      (GEMINI, PyStr "immediate-or-cancel");
      (POLONIEX, PyStr "immediateOrCancel");
      (COINBASE, PyDict [("time_in_force", PyStr "IOC")]);
      (KRAKEN, PyStr UNSUPPORTED);
      (BLOCKCHAIN, PyStr "IOC")]);
    (MAKER_OR_CANCEL, dict_display [
      (GEMINI, PyStr "maker-or-cancel");
      (POLONIEX, PyStr "postOnly");
      (COINBASE, PyDict [("post_only", PyInt 1)]);
      (KRAKEN, PyStr "post")])
  ].

(** ** The two table look-ups *)

Definition normalize_trading_options (exchange option : string) : result pyval :=
  if negb (dict_contains _exchange_options option) then Raise UnsupportedTradingOption
  else
    sub ← dict_getitem _exchange_options option;
    if negb (dict_contains sub exchange) then Raise UnsupportedTradingOption
    else
      ret ← dict_getitem sub exchange;
      if py_eq_str ret UNSUPPORTED then Raise UnsupportedTradingOption
      else Ok ret.

(** A record handed to the logger [LOG]: [LOG.error(fmt, arg)]. *)
Inductive log_record : Type :=
| LogError (fmt : string) (arg : exn).

(** The inner function [raise_error]: it logs unless [silent], then
    raises. *)
Definition raise_error {A : Type} (exchange feed : string) (silent : bool)
    : result A * list log_record :=
  let exception := UnsupportedDataFeed (feed ++ " is not currently supported on " ++ exchange) in
  (Raise exception, if negb silent then [LogError "Error: %r" exception] else []).

(** The outcome of a call and the records it logged. *)
Definition feed_to_exchange (reg : registry) (exchange feed : string) (silent : bool)
    : result pyval * list log_record :=
  if String.eqb exchange POLONIEX && negb (dict_contains _feed_to_exchange_map feed) then
    (s ← pair_std_to_exchange reg feed POLONIEX; Ok (PyStr s), [])
  else
    match sub ← dict_getitem _feed_to_exchange_map feed; dict_getitem sub exchange with
    | Raise (KeyError _) => raise_error exchange feed silent
    | Raise e => (Raise e, [])
    | Ok ret =>
        if py_eq_str ret UNSUPPORTED then raise_error exchange feed silent
        else (Ok ret, [])
    end.

(** ** What a provider output assigns *)

(** The standard symbol the loop of [load_exchange_pair_mapping] leaves
    under the native symbol [native]: that of the last item with this
    native symbol. *)
Definition last_std_of (items : list (string * string)) (native : string) : option string :=
  foldl (λ acc item, if decide (item.2 = native) then Some item.1 else acc) None items.

(** The native symbol of the last item with the standard symbol [std]. *)
Definition last_native_of (items : list (string * string)) (std : string) : option string :=
  foldl (λ acc item, if decide (item.1 = std) then Some item.2 else acc) None items.

(** The value a two-level table holds for a key and an exchange, if any:
    [table[key][exchange]] read without raising. *)
Definition table_entry (table : gmap string (gmap string pyval)) (key exchange : string)
    : option pyval :=
  sub ← table !! key; sub !! exchange.

(** Whether the channel table holds a value other than UNSUPPORTED for a
    feed and an exchange. *)
Definition has_channel (feed exchange : string) : bool :=
  match table_entry _feed_to_exchange_map feed exchange with
  | Some ret => negb (py_eq_str ret UNSUPPORTED)
  | None => false
  end.

(** ** Registries the module can reach *)

(** The native symbol the forward dictionary holds for a standard symbol
    and an exchange, if any: [_std_trading_pairs[std][exchange]] read
    without raising. *)
Definition forward_entry (reg : registry) (std exchange : string) : option string :=
  sub ← _std_trading_pairs reg !! std; sub !! exchange.

(** The module starts with both dictionaries empty, and
    [load_exchange_pair_mapping] is the only function that writes them:
    [warmed gen_pairs reg] says that [reg] is the registry after some
    sequence of such calls. *)
Inductive warmed (gen_pairs : string → list (string * string)) : registry → Prop :=
| warmed_start : warmed gen_pairs empty_registry
| warmed_load (reg : registry) (exchange : string) :
    warmed gen_pairs reg →
    warmed gen_pairs (load_exchange_pair_mapping gen_pairs reg exchange).

(** ** Sample provider outputs *)

(** A provider whose dictionary for KRAKEN gives two standard symbols the
    same native symbol. *)
Definition colliding_pairs (exchange : string) : list (string * string) :=
  [("BTC-USD", "XBTUSD"); ("XBT-USD", "XBTUSD")].

(** A provider with one native symbol per standard symbol. *)
Definition distinct_pairs (exchange : string) : list (string * string) :=
  [("BTC-USD", "XBT/USD"); ("ETH-USD", "ETH/USD")].

(** A provider with a dictionary per exchange; KRAKEN lists the bare
    currency ["BTC"]. *)
Definition sample_pairs (exchange : string) : list (string * string) :=
  if String.eqb exchange KRAKEN then [("BTC-USD", "XBT/USD"); ("BTC", "XBT")]
  else if String.eqb exchange POLONIEX then [("BTC-USDT", "USDT_BTC")]
  else if String.eqb exchange GEMINI then [("BTC-USD", "btcusd")]
  else [].

(** Closes a decidable closed goal by evaluating its decision procedure. *)
Ltac by_decide := apply (bool_decide_unpack _); vm_compute; exact I.

(** * Properties *)

(** ** Dictionaries and strings *)

Lemma dict_contains_true {V : Type} (d : gmap string V) (k : string) :
  dict_contains d k = true ↔ is_Some (d !! k).
Proof. unfold dict_contains. apply bool_decide_eq_true. Qed.

Lemma dict_contains_false {V : Type} (d : gmap string V) (k : string) :
  dict_contains d k = false ↔ d !! k = None.
Proof.
  unfold dict_contains. rewrite bool_decide_eq_false.
  rewrite <- eq_None_not_Some. done.
Qed.

Lemma dict_contains_Some {V : Type} (d : gmap string V) (k : string) (v : V) :
  d !! k = Some v → dict_contains d k = true.
Proof. intros H. apply dict_contains_true. by exists v. Qed.

Lemma dict_getitem_Some {V : Type} (d : gmap string V) (k : string) (v : V) :
  d !! k = Some v → dict_getitem d k = Ok v.
Proof. intros H. unfold dict_getitem. by rewrite H. Qed.

Lemma dict_getitem_None {V : Type} (d : gmap string V) (k : string) :
  d !! k = None → dict_getitem d k = Raise (KeyError k).
Proof. intros H. unfold dict_getitem. by rewrite H. Qed.

(** [c in s] for a one-character string is membership of the character. *)
Lemma str_in_char (c : ascii) (s : string) :
  str_in (String c EmptyString) s = true ↔ In c (list_ascii_of_string s).
Proof.
  induction s as [|a s IH]; simpl.
  - split; [discriminate | tauto].
  - rewrite orb_true_iff, IH. destruct (ascii_dec c a) as [->|Hne].
    + split; [by left | intros _; left; by destruct s].
    + split.
      * intros [H|H]; [discriminate | by right].
      * intros [H|H]; [congruence | by right].
Qed.

Lemma py_eq_str_true (v : pyval) (s : string) :
  py_eq_str v s = true ↔ v = PyStr s.
Proof.
  destruct v; simpl; try (split; [discriminate | congruence]).
  rewrite String.eqb_eq. split; congruence.
Qed.

Lemma py_eq_str_false (v : pyval) (s : string) :
  py_eq_str v s = false ↔ v ≠ PyStr s.
Proof.
  rewrite <- py_eq_str_true. destruct (py_eq_str v s); split; congruence.
Qed.

Lemma exempt_spec (exchange : string) :
  exchange ∈ exempt ↔ exchange = BITMEX ∨ exchange = DERIBIT ∨ exchange = KRAKEN_FUTURES.
Proof.
  unfold exempt. rewrite !elem_of_cons, elem_of_nil. tauto.
Qed.

(** ** The loop of load_exchange_pair_mapping *)

Section Loading.

Implicit Types (items : list (string * string)) (reg : registry).
Implicit Types (exchange std native : string).

Lemma last_std_of_snoc items item native :
  last_std_of (items ++ [item]) native =
  if decide (item.2 = native) then Some item.1 else last_std_of items native.
Proof. unfold last_std_of. by rewrite foldl_app. Qed.

Lemma last_native_of_snoc items item std :
  last_native_of (items ++ [item]) std =
  if decide (item.1 = std) then Some item.2 else last_native_of items std.
Proof. unfold last_native_of. by rewrite foldl_app. Qed.

(** What the loop found is an item of the provider's output. *)
Lemma last_std_of_Some items native std :
  last_std_of items native = Some std → (std, native) ∈ items.
Proof.
  induction items as [|[s x] items IH] using rev_ind; [discriminate|].
  rewrite last_std_of_snoc, elem_of_app, list_elem_of_singleton. simpl.
  case_decide as Hx.
  - intros [= <-]. right. by rewrite Hx.
  - intros H. left. by apply IH.
Qed.

Lemma last_std_of_is_Some items native std :
  (std, native) ∈ items → is_Some (last_std_of items native).
Proof.
  induction items as [|[s x] items IH] using rev_ind.
  - by intros ?%elem_of_nil.
  - rewrite last_std_of_snoc, elem_of_app, list_elem_of_singleton. simpl.
    case_decide as Hx; [by eexists|].
    intros [H|[= -> ->]]; [by apply IH | done].
Qed.

(** The items of a dictionary have distinct keys: the last item with the
    key [std] is the only one. *)
Lemma last_native_of_NoDup items std native :
  NoDup items.*1 → (std, native) ∈ items → last_native_of items std = Some native.
Proof.
  induction items as [|[s x] items IH] using rev_ind.
  - by intros _ ?%elem_of_nil.
  - rewrite fmap_app, NoDup_app, last_native_of_snoc, elem_of_app, list_elem_of_singleton.
    simpl. intros (Hnd & Hfresh & _) Hin. case_decide as Hs.
    + destruct Hin as [Hin|[= -> ->]]; [|done].
      exfalso. apply (Hfresh std).
      * apply list_elem_of_fmap. by exists (std, native).
      * rewrite Hs. apply list_elem_of_singleton. done.
    + destruct Hin as [Hin|[= -> ->]]; [by apply IH | done].
Qed.

(** The backward dictionary after the loop: a native symbol the provider
    mentions maps to the standard symbol of its last item, any other key
    keeps its entry. *)
Lemma lookup_exchange_to_std_loop exchange items reg native :
  _exchange_to_std (foldl (load_step exchange) reg items) !! native =
  match last_std_of items native with
  | Some std => Some std
  | None => _exchange_to_std reg !! native
  end.
Proof.
  induction items as [|[s x] items IH] using rev_ind; [done|].
  rewrite foldl_app, last_std_of_snoc. simpl.
  rewrite lookup_insert. case_decide as Hx; [done|]. apply IH.
Qed.

(** The forward dictionary after the loop: a standard symbol the provider
    mentions has its earlier sub-dictionary with the entry of [exchange]
    set to the native symbol of its last item. *)
Lemma lookup_std_trading_pairs_loop exchange items reg std :
  _std_trading_pairs (foldl (load_step exchange) reg items) !! std =
  match last_native_of items std with
  | Some native => Some (<[exchange := native]> (default ∅ (_std_trading_pairs reg !! std)))
  | None => _std_trading_pairs reg !! std
  end.
Proof.
  induction items as [|[s x] items IH] using rev_ind; [done|].
  rewrite foldl_app, last_native_of_snoc. simpl.
  set (reg' := foldl (load_step exchange) reg items) in *.
  case_decide as Hs.
  - subst s. destruct (_std_trading_pairs reg' !! std) as [sub|] eqn:Hsub.
    + rewrite lookup_insert_eq. f_equal.
      destruct (last_native_of items std); simplify_eq.
      * by rewrite insert_insert_eq.
      * rewrite <- IH. done.
    + rewrite lookup_insert_eq. f_equal.
      destruct (last_native_of items std); [done|].
      rewrite <- IH. simpl. by rewrite insert_empty.
  - destruct (_std_trading_pairs reg' !! s); rewrite lookup_insert_ne by done; apply IH.
Qed.

Lemma registry_eq reg1 reg2 :
  (∀ std, _std_trading_pairs reg1 !! std = _std_trading_pairs reg2 !! std) →
  (∀ native, _exchange_to_std reg1 !! native = _exchange_to_std reg2 !! native) →
  reg1 = reg2.
Proof.
  destruct reg1, reg2. simpl. intros Hf Hb.
  f_equal; by apply map_eq.
Qed.

(** Running the loop again over the same items changes nothing. *)
Lemma load_loop_idempotent exchange items reg :
  foldl (load_step exchange) (foldl (load_step exchange) reg items) items =
  foldl (load_step exchange) reg items.
Proof.
  apply registry_eq.
  - intros std. rewrite !lookup_std_trading_pairs_loop.
    destruct (last_native_of items std); [|done].
    simpl. by rewrite insert_insert_eq.
  - intros native. rewrite !lookup_exchange_to_std_loop.
    by destruct (last_std_of items native).
Qed.

End Loading.

(** ** Symbol registry: look-ups *)

(** C2: [pair_std_to_exchange] returns the standard symbol unchanged for
    the exempt exchanges BITMEX, DERIBIT and KRAKEN_FUTURES.  For any other
    exchange, a standard symbol that is a key of the forward dictionary
    gives the entry of the exchange, or UnsupportedTradingPair when the
    exchange has none; a standard symbol that is no key gives ["f" + standard]
    exactly when the exchange is BITFINEX and the symbol contains no ["-"],
    and UnsupportedTradingPair in every other case. *)
Theorem pair_std_to_exchange_cases (reg : registry) (standard exchange : string) :
  let r := pair_std_to_exchange reg standard exchange in
  let unsupported :=
    Raise (UnsupportedTradingPair (standard ++ " is not supported on " ++ exchange)) in
  (exchange = BITMEX ∨ exchange = DERIBIT ∨ exchange = KRAKEN_FUTURES → r = Ok standard) ∧
  (¬ (exchange = BITMEX ∨ exchange = DERIBIT ∨ exchange = KRAKEN_FUTURES) →
     (∀ sub native, _std_trading_pairs reg !! standard = Some sub →
        sub !! exchange = Some native → r = Ok native) ∧
     (∀ sub, _std_trading_pairs reg !! standard = Some sub →
        sub !! exchange = None → r = unsupported) ∧
     (_std_trading_pairs reg !! standard = None →
        (r = Ok ("f" ++ standard) ↔ exchange = BITFINEX ∧ str_in "-" standard = false) ∧
        (¬ (exchange = BITFINEX ∧ str_in "-" standard = false) → r = unsupported))).
Proof.
  intros r unsupported. subst r unsupported. unfold pair_std_to_exchange.
  rewrite <- exempt_spec. split.
  - intros He. by rewrite bool_decide_eq_true_2.
  - intros He. rewrite bool_decide_eq_false_2 by done. split; [|split].
    + intros sub native Hsub Hnat.
      rewrite (dict_contains_Some _ _ _ Hsub), (dict_getitem_Some _ _ _ Hsub). simpl.
      by rewrite (dict_getitem_Some _ _ _ Hnat).
    + intros sub Hsub Hnat.
      rewrite (dict_contains_Some _ _ _ Hsub), (dict_getitem_Some _ _ _ Hsub). simpl.
      by rewrite (dict_getitem_None _ _ Hnat).
    + intros Hkey%dict_contains_false. rewrite Hkey.
      destruct (String.eqb_spec exchange BITFINEX) as [->|Hne]; simpl.
      * destruct (str_in "-" standard); simpl.
        -- split; [|done]. split; [discriminate | by intros [_ ?]].
        -- split; [done|]. intros Hno. by destruct Hno.
      * split; [|done]. split; [discriminate | by intros [? _]].
Qed.

(** The four branches of C2 on concrete registries. *)
Lemma pair_std_to_exchange_cases_witness :
  pair_std_to_exchange empty_registry "BTC-USD" BITMEX = Ok "BTC-USD" ∧
  pair_std_to_exchange (Registry {["BTC-USD" := {[KRAKEN := "XBT/USD"]}]} ∅) "BTC-USD" KRAKEN
    = Ok "XBT/USD" ∧
  pair_std_to_exchange (Registry {["BTC-USD" := {[KRAKEN := "XBT/USD"]}]} ∅) "BTC-USD" GEMINI
    = Raise (UnsupportedTradingPair "BTC-USD is not supported on GEMINI") ∧
  pair_std_to_exchange empty_registry "BTC" BITFINEX = Ok "fBTC" ∧
  pair_std_to_exchange empty_registry "BTC-USD" BITFINEX
    = Raise (UnsupportedTradingPair "BTC-USD is not supported on BITFINEX").
Proof.
  assert (∀ e, bool_decide (e ∈ exempt) = false →
            ¬ (e = BITMEX ∨ e = DERIBIT ∨ e = KRAKEN_FUTURES)) as Hne.
  { intros e He%bool_decide_eq_false. by rewrite <- exempt_spec. }
  split; [|split; [|split; [|split]]].
  - apply (proj1 (pair_std_to_exchange_cases empty_registry "BTC-USD" BITMEX)). by left.
  - destruct (pair_std_to_exchange_cases
                (Registry {["BTC-USD" := {[KRAKEN := "XBT/USD"]}]} ∅) "BTC-USD" KRAKEN) as [_ H].
    destruct (H (Hne KRAKEN eq_refl)) as (Hfound & _ & _).
    by apply (Hfound {[KRAKEN := "XBT/USD"]}).
  - destruct (pair_std_to_exchange_cases
                (Registry {["BTC-USD" := {[KRAKEN := "XBT/USD"]}]} ∅) "BTC-USD" GEMINI) as [_ H].
    destruct (H (Hne GEMINI eq_refl)) as (_ & Hmissing & _).
    by apply (Hmissing {[KRAKEN := "XBT/USD"]}).
  - destruct (pair_std_to_exchange_cases empty_registry "BTC" BITFINEX) as [_ H].
    destruct (H (Hne BITFINEX eq_refl)) as (_ & _ & Hunknown).
    destruct (Hunknown eq_refl) as [Hiff _]. by apply Hiff.
  - destruct (pair_std_to_exchange_cases empty_registry "BTC-USD" BITFINEX) as [_ H].
    destruct (H (Hne BITFINEX eq_refl)) as (_ & _ & Hunknown).
    destruct (Hunknown eq_refl) as [_ Hfail]. apply Hfail. by intros [_ ?].
Defined.

(** What [pair_exchange_to_std] does on each kind of native symbol. *)
Lemma pair_exchange_to_std_known (reg : registry) (native std : string) :
  _exchange_to_std reg !! native = Some std →
  pair_exchange_to_std reg native = Ok (Some std).
Proof.
  intros H. unfold pair_exchange_to_std.
  by rewrite (dict_contains_Some _ _ _ H), (dict_getitem_Some _ _ _ H).
Qed.

Lemma pair_exchange_to_std_funding (reg : registry) (rest : string) :
  _exchange_to_std reg !! String "f" rest = None →
  pair_exchange_to_std reg (String "f" rest) = Ok (Some rest).
Proof.
  intros H%dict_contains_false. unfold pair_exchange_to_std. by rewrite H.
Qed.

Lemma pair_exchange_to_std_unknown (reg : registry) (c : ascii) (rest : string) :
  _exchange_to_std reg !! String c rest = None → c ≠ "f"%char →
  pair_exchange_to_std reg (String c rest) = Ok None.
Proof.
  intros H%dict_contains_false Hc%Ascii.eqb_neq. unfold pair_exchange_to_std.
  rewrite H. simpl. by rewrite Hc.
Qed.

Example pair_exchange_to_std_fBTC : pair_exchange_to_std empty_registry "fBTC" = Ok (Some "BTC").
Proof. reflexivity. Qed.

(** C4: on the empty string, which no registry entry names, the test
    [pair[0] == 'f'] raises IndexError: the function fails on an
    unrecognised native symbol instead of returning [None]. *)
Theorem pair_exchange_to_std_empty_string_fails :
  pair_exchange_to_std empty_registry "" = Raise IndexError.
Proof. reflexivity. Qed.

(** C10: applied to the empty string, [pair_exchange_to_std] raises
    IndexError whenever the empty string is not a key of the backward
    dictionary; it does not return [None]. *)
Theorem pair_exchange_to_std_partial (reg : registry) :
  _exchange_to_std reg !! "" = None →
  pair_exchange_to_std reg "" = Raise IndexError ∧
  pair_exchange_to_std reg "" ≠ Ok None.
Proof.
  intros H%dict_contains_false. unfold pair_exchange_to_std. rewrite H. simpl.
  split; [done | discriminate].
Qed.

Lemma pair_exchange_to_std_partial_witness :
  pair_exchange_to_std (Registry ∅ {["XBT/USD" := "BTC-USD"]}) "" = Raise IndexError ∧
  pair_exchange_to_std (Registry ∅ {["XBT/USD" := "BTC-USD"]}) "" ≠ Ok None.
Proof.
  apply (pair_exchange_to_std_partial (Registry ∅ {["XBT/USD" := "BTC-USD"]})).
  reflexivity.
Defined.

(** ** Symbol registry: warming *)

Section Warming.

Variable gen_pairs : string → list (string * string).

Implicit Types (reg : registry) (exchange std native : string).

(** C1, as amended: after [load_exchange_pair_mapping] for an exchange
    that is not exempt, every pair [(std, native)] of the provider's
    dictionary for that exchange translates forward,
    [pair_std_to_exchange std exchange = native]; it translates backward,
    [pair_exchange_to_std native = std], when no other standard symbol of
    that dictionary has the same native symbol. *)
Theorem load_then_round_trip reg exchange std native :
  exchange ∉ exempt →
  NoDup (gen_pairs exchange).*1 →
  (std, native) ∈ gen_pairs exchange →
  let reg' := load_exchange_pair_mapping gen_pairs reg exchange in
  pair_std_to_exchange reg' std exchange = Ok native ∧
  ((∀ std', (std', native) ∈ gen_pairs exchange → std' = std) →
   pair_exchange_to_std reg' native = Ok (Some std)).
Proof.
  intros He Hkeys Hin reg'. subst reg'. unfold load_exchange_pair_mapping.
  rewrite bool_decide_eq_false_2 by done. split.
  - unfold pair_std_to_exchange. rewrite bool_decide_eq_false_2 by done.
    pose proof (lookup_std_trading_pairs_loop exchange (gen_pairs exchange) reg std) as Hfwd.
    rewrite (last_native_of_NoDup _ _ _ Hkeys Hin) in Hfwd.
    rewrite (dict_contains_Some _ _ _ Hfwd), (dict_getitem_Some _ _ _ Hfwd). simpl.
    by rewrite (dict_getitem_Some _ _ native) by apply lookup_insert_eq.
  - intros Hinj. apply pair_exchange_to_std_known.
    rewrite lookup_exchange_to_std_loop.
    destruct (last_std_of_is_Some _ _ _ Hin) as [std' Hlast]. rewrite Hlast.
    f_equal. apply Hinj. by apply last_std_of_Some.
Qed.

(** C7: a second [load_exchange_pair_mapping] for the same exchange, with
    the same provider output, leaves both dictionaries as the first call
    left them. *)
Theorem load_exchange_pair_mapping_idempotent reg exchange :
  load_exchange_pair_mapping gen_pairs
    (load_exchange_pair_mapping gen_pairs reg exchange) exchange =
  load_exchange_pair_mapping gen_pairs reg exchange.
Proof.
  unfold load_exchange_pair_mapping. case_bool_decide; [done|].
  apply load_loop_idempotent.
Qed.

(** Warming an exempt exchange does not touch the registry. *)
Lemma load_exchange_pair_mapping_exempt reg exchange :
  exchange ∈ exempt → load_exchange_pair_mapping gen_pairs reg exchange = reg.
Proof. intros He. unfold load_exchange_pair_mapping. by rewrite bool_decide_eq_true_2. Qed.

End Warming.

(** C1, as stated, fails: [("BTC-USD", "XBTUSD")] is a pair of the
    provider's dictionary for KRAKEN, and after warming KRAKEN the native
    symbol translates back to ["XBT-USD"], the standard symbol of the later
    pair. *)
Lemma load_then_round_trip_counterexample :
  (KRAKEN ∉ exempt) ∧
  NoDup (colliding_pairs KRAKEN).*1 ∧
  ("BTC-USD", "XBTUSD") ∈ colliding_pairs KRAKEN ∧
  pair_exchange_to_std
    (load_exchange_pair_mapping colliding_pairs empty_registry KRAKEN) "XBTUSD"
    = Ok (Some "XBT-USD") ∧
  (pair_exchange_to_std
     (load_exchange_pair_mapping colliding_pairs empty_registry KRAKEN) "XBTUSD"
     ≠ Ok (Some "BTC-USD")).
Proof.
  split; [by_decide|]. split; [by_decide|]. split; [by_decide|].
  split; [reflexivity | discriminate].
Qed.

Lemma load_then_round_trip_witness :
  pair_std_to_exchange
    (load_exchange_pair_mapping distinct_pairs empty_registry KRAKEN) "BTC-USD" KRAKEN
    = Ok "XBT/USD" ∧
  pair_exchange_to_std
    (load_exchange_pair_mapping distinct_pairs empty_registry KRAKEN) "XBT/USD"
    = Ok (Some "BTC-USD").
Proof.
  destruct (load_then_round_trip distinct_pairs empty_registry KRAKEN "BTC-USD" "XBT/USD")
    as [Hfwd Hbwd].
  - by_decide.
  - by_decide.
  - by_decide.
  - split; [exact Hfwd|]. apply Hbwd.
    intros std' Hin. unfold distinct_pairs in Hin.
    apply elem_of_cons in Hin as [[= ->]|Hin]; [done|].
    apply elem_of_cons in Hin as [[=]|Hin]. by apply elem_of_nil in Hin.
Defined.

(** ** Channel translation *)

Lemma table_entry_Some table key exchange v :
  table_entry table key exchange = Some v ↔
  ∃ sub, table !! key = Some sub ∧ sub !! exchange = Some v.
Proof.
  unfold table_entry. destruct (table !! key) as [sub|]; simpl.
  - split; [by exists sub | by intros (? & [= <-] & ?)].
  - split; [done | by intros (? & ? & ?)].
Qed.

Lemma table_entry_None table key exchange :
  table_entry table key exchange = None ↔
  table !! key = None ∨ ∃ sub, table !! key = Some sub ∧ sub !! exchange = None.
Proof.
  unfold table_entry. destruct (table !! key) as [sub|]; simpl.
  - split; [right; by exists sub | by intros [?|(? & [= <-] & ?)]].
  - split; [by left | done].
Qed.

(** The look-up [_feed_to_exchange_map[feed][exchange]] under
    [try ... except KeyError]. *)
Lemma feed_lookup_entry exchange feed :
  (sub ← dict_getitem _feed_to_exchange_map feed; dict_getitem sub exchange) =
  match table_entry _feed_to_exchange_map feed exchange with
  | Some v => Ok v
  | None => Raise (KeyError (if dict_contains _feed_to_exchange_map feed then exchange else feed))
  end.
Proof.
  unfold table_entry, dict_getitem, dict_contains.
  destruct (_feed_to_exchange_map !! feed) as [sub|]; simpl; [|done].
  by destruct (sub !! exchange).
Qed.

(** C3: [feed_to_exchange] returns the value the table holds for
    [(feed, exchange)] exactly when there is one and it is not UNSUPPORTED;
    it raises UnsupportedDataFeed when the value is UNSUPPORTED, and when
    the table holds nothing for the pair and the exchange is not POLONIEX.
    [feed_to_exchange(COINBASE, TRADES)] is ["matches"]. *)
Theorem feed_to_exchange_table (reg : registry) (exchange feed : string) (silent : bool) :
  let r := (feed_to_exchange reg exchange feed silent).1 in
  let entry := table_entry _feed_to_exchange_map feed exchange in
  let unsupported :=
    Raise (UnsupportedDataFeed (feed ++ " is not currently supported on " ++ exchange)) in
  (∀ v, entry = Some v → (r = Ok v ↔ v ≠ PyStr UNSUPPORTED)) ∧
  (entry = Some (PyStr UNSUPPORTED) → r = unsupported) ∧
  (entry = None → exchange ≠ POLONIEX → r = unsupported) ∧
  (feed_to_exchange reg "COINBASE" TRADES silent).1 = Ok (PyStr "matches").
Proof.
  intros r entry unsupported. subst r entry unsupported.
  split; [|split; [|split]].
  - intros v Hv. unfold feed_to_exchange.
    pose proof Hv as (sub & Hsub & _)%table_entry_Some.
    rewrite (dict_contains_Some _ _ _ Hsub), andb_false_r, feed_lookup_entry, Hv.
    destruct (py_eq_str v UNSUPPORTED) eqn:Heq.
    + apply py_eq_str_true in Heq. split; [discriminate | done].
    + apply py_eq_str_false in Heq. done.
  - intros Hv. unfold feed_to_exchange.
    pose proof Hv as (sub & Hsub & _)%table_entry_Some.
    by rewrite (dict_contains_Some _ _ _ Hsub), andb_false_r, feed_lookup_entry, Hv.
  - intros Hv Hex%String.eqb_neq. unfold feed_to_exchange.
    by rewrite Hex, feed_lookup_entry, Hv.
  - by destruct silent.
Qed.

(** The three outcomes of C3 on table entries of the source. *)
Lemma feed_to_exchange_table_witness :
  (feed_to_exchange empty_registry "COINBASE" TRADES false).1 = Ok (PyStr "matches") ∧
  (feed_to_exchange empty_registry POLONIEX TICKER false).1 = Ok (PyInt 1002) ∧
  (feed_to_exchange empty_registry KRAKEN L3_BOOK false).1
    = Raise (UnsupportedDataFeed "l3_book is not currently supported on KRAKEN") ∧
  (feed_to_exchange empty_registry KRAKEN VOLUME false).1
    = Raise (UnsupportedDataFeed "volume is not currently supported on KRAKEN").
Proof.
  split; [|split; [|split]].
  - apply (feed_to_exchange_table empty_registry KRAKEN L3_BOOK false).
  - destruct (feed_to_exchange_table empty_registry POLONIEX TICKER false) as (H & _).
    apply (H (PyInt 1002)); [reflexivity | discriminate].
  - destruct (feed_to_exchange_table empty_registry KRAKEN L3_BOOK false) as (_ & H & _).
    by apply H.
  - destruct (feed_to_exchange_table empty_registry KRAKEN VOLUME false) as (_ & _ & H & _).
    apply H; [reflexivity | discriminate].
Defined.

(** C5, as amended: for POLONIEX, whenever [feed] is not a key of the
    channel table at all, [feed_to_exchange] returns what
    [pair_std_to_exchange(feed, POLONIEX)] returns or raises, and logs
    nothing. *)
Theorem feed_to_exchange_poloniex_symbol (reg : registry) (feed : string) (silent : bool) :
  _feed_to_exchange_map !! feed = None →
  feed_to_exchange reg POLONIEX feed silent =
  (s ← pair_std_to_exchange reg feed POLONIEX; Ok (PyStr s), []).
Proof.
  intros H%dict_contains_false. unfold feed_to_exchange. by rewrite H.
Qed.

Lemma feed_to_exchange_poloniex_symbol_witness :
  feed_to_exchange (Registry {["BTC-USDT" := {[POLONIEX := "USDT_BTC"]}]} ∅)
    POLONIEX "BTC-USDT" false = (Ok (PyStr "USDT_BTC"), []).
Proof.
  eapply eq_trans.
  - apply (feed_to_exchange_poloniex_symbol
             (Registry {["BTC-USDT" := {[POLONIEX := "USDT_BTC"]}]} ∅) "BTC-USDT" false).
    reflexivity.
  - reflexivity.
Defined.

(** C5, as stated, fails: FUNDING is a key of the channel table that has
    no entry for POLONIEX, so it is not a channel of that exchange; the
    call raises UnsupportedDataFeed, which is not the outcome
    UnsupportedTradingPair of [pair_std_to_exchange(FUNDING, POLONIEX)]. *)
Lemma feed_to_exchange_poloniex_counterexample :
  table_entry _feed_to_exchange_map FUNDING POLONIEX = None ∧
  (feed_to_exchange empty_registry POLONIEX FUNDING false).1
    = Raise (UnsupportedDataFeed "funding is not currently supported on POLONIEX") ∧
  pair_std_to_exchange empty_registry FUNDING POLONIEX
    = Raise (UnsupportedTradingPair "funding is not supported on POLONIEX").
Proof. split; [|split]; reflexivity. Qed.

(** For POLONIEX a channel of the table without a POLONIEX entry fails
    like it does for every other exchange. *)
Lemma feed_to_exchange_poloniex_channel (reg : registry) (feed : string) (silent : bool) :
  is_Some (_feed_to_exchange_map !! feed) →
  table_entry _feed_to_exchange_map feed POLONIEX = None →
  (feed_to_exchange reg POLONIEX feed silent).1 =
  Raise (UnsupportedDataFeed (feed ++ " is not currently supported on " ++ POLONIEX)).
Proof.
  intros Hkey%dict_contains_true Hentry. unfold feed_to_exchange.
  by rewrite Hkey, andb_false_r, feed_lookup_entry, Hentry.
Qed.

(** C9: the outcome of [feed_to_exchange], the value returned or the
    exception raised, is the same with [silent] set and unset, for every
    exchange, feed and registry. *)
Theorem feed_to_exchange_silent_outcome (reg : registry) (exchange feed : string) :
  (feed_to_exchange reg exchange feed true).1 = (feed_to_exchange reg exchange feed false).1.
Proof.
  unfold feed_to_exchange.
  destruct (String.eqb exchange POLONIEX && negb (dict_contains _feed_to_exchange_map feed));
    [done|].
  destruct (sub ← dict_getitem _feed_to_exchange_map feed; dict_getitem sub exchange)
    as [ret|[]]; try done.
  by destruct (py_eq_str ret UNSUPPORTED).
Qed.

(** A silent call logs nothing; a call that is not silent logs exactly
    the failures it raises through [raise_error]. *)
Lemma feed_to_exchange_silent_log (reg : registry) (exchange feed : string) :
  (feed_to_exchange reg exchange feed true).2 = [].
Proof.
  unfold feed_to_exchange.
  destruct (String.eqb exchange POLONIEX && negb (dict_contains _feed_to_exchange_map feed));
    [done|].
  destruct (sub ← dict_getitem _feed_to_exchange_map feed; dict_getitem sub exchange)
    as [ret|[]]; try done.
  by destruct (py_eq_str ret UNSUPPORTED).
Qed.

Example feed_to_exchange_logs_failure :
  feed_to_exchange empty_registry KRAKEN L3_BOOK false =
  (Raise (UnsupportedDataFeed "l3_book is not currently supported on KRAKEN"),
   [LogError "Error: %r" (UnsupportedDataFeed "l3_book is not currently supported on KRAKEN")]).
Proof. reflexivity. Qed.

(** ** Trading options *)

(** C6: [normalize_trading_options] raises UnsupportedTradingOption in
    exactly three cases: the option is not a key of the option table, the
    exchange has no entry under the option, or the entry is UNSUPPORTED.
    In every other case it returns the entry unchanged.
    [normalize_trading_options("KRAKEN", "limit")] is ["limit"] and
    [normalize_trading_options("GEMINI", "market")] raises
    UnsupportedTradingOption. *)
Theorem normalize_trading_options_cases (exchange option : string) :
  let r := normalize_trading_options exchange option in
  (r = Raise UnsupportedTradingOption ↔
     _exchange_options !! option = None ∨
     (∃ sub, _exchange_options !! option = Some sub ∧ sub !! exchange = None) ∨
     (∃ sub, _exchange_options !! option = Some sub ∧
             sub !! exchange = Some (PyStr UNSUPPORTED))) ∧
  (∀ sub v, _exchange_options !! option = Some sub → sub !! exchange = Some v →
     v ≠ PyStr UNSUPPORTED → r = Ok v) ∧
  normalize_trading_options "KRAKEN" "limit" = Ok (PyStr "limit") ∧
  normalize_trading_options "GEMINI" "market" = Raise UnsupportedTradingOption.
Proof.
  intros r. subst r. unfold normalize_trading_options.
  split; [|split; [|split; reflexivity]].
  - destruct (_exchange_options !! option) as [sub|] eqn:Hopt.
    + rewrite (dict_contains_Some _ _ _ Hopt), (dict_getitem_Some _ _ _ Hopt). simpl.
      destruct (sub !! exchange) as [v|] eqn:Hv.
      * rewrite (dict_contains_Some _ _ _ Hv), (dict_getitem_Some _ _ _ Hv). simpl.
        destruct (py_eq_str v UNSUPPORTED) eqn:Heq.
        -- apply py_eq_str_true in Heq as ->. split; [|done].
           intros _. right. right. by exists sub.
        -- apply py_eq_str_false in Heq. split; [discriminate|].
           intros [?|[(? & [= <-] & ?)|(? & [= <-] & ?)]]; congruence.
      * rewrite (proj2 (dict_contains_false _ _) Hv). simpl.
        split; [|done]. intros _. right. left. by exists sub.
    + rewrite (proj2 (dict_contains_false _ _) Hopt). simpl.
      split; [by left | done].
  - intros sub v Hopt Hv Hne.
    rewrite (dict_contains_Some _ _ _ Hopt), (dict_getitem_Some _ _ _ Hopt). simpl.
    rewrite (dict_contains_Some _ _ _ Hv), (dict_getitem_Some _ _ _ Hv). simpl.
    apply py_eq_str_false in Hne. by rewrite Hne.
Qed.

(** The cases of C6 on entries of the source's option table. *)
Lemma normalize_trading_options_cases_witness :
  normalize_trading_options COINBASE FILL_OR_KILL = Ok (PyDict [("time_in_force", PyStr "FOK")]) ∧
  normalize_trading_options BLOCKCHAIN MAKER_OR_CANCEL = Raise UnsupportedTradingOption ∧
  normalize_trading_options KRAKEN "stop-loss" = Raise UnsupportedTradingOption ∧
  normalize_trading_options KRAKEN FILL_OR_KILL = Raise UnsupportedTradingOption.
Proof.
  split; [|split; [|split]].
  - destruct (normalize_trading_options_cases COINBASE FILL_OR_KILL) as (_ & H & _).
    eapply H; [reflexivity | reflexivity | discriminate].
  - destruct (normalize_trading_options_cases BLOCKCHAIN MAKER_OR_CANCEL) as (H & _).
    apply H. right. left. eexists. split; reflexivity.
  - destruct (normalize_trading_options_cases KRAKEN "stop-loss") as (H & _).
    apply H. left. reflexivity.
  - destruct (normalize_trading_options_cases KRAKEN FILL_OR_KILL) as (H & _).
    apply H. right. right. eexists. split; reflexivity.
Defined.

(** ** Conversion of integers to floats *)

Section FloatConversion.
Local Open Scope Z_scope.

Lemma digits2_pos_size (p : positive) : digits2_pos p = Pos.size p.
Proof. induction p; simpl; congruence. Qed.

Lemma digits2_pos_bound (p : positive) (k : Z) :
  0 ≤ k → Zpos p < 2 ^ k → Zpos (digits2_pos p) ≤ k.
Proof.
  intros Hk Hp. rewrite digits2_pos_size.
  destruct (Z_le_gt_dec (Zpos (Pos.size p)) k) as [|Hgt]; [done|]. exfalso.
  pose proof (Pos.size_le p) as Hle.
  assert (2 ^ Zpos (Pos.size p) ≤ 2 * Zpos p) as H2.
  { rewrite <- Pos2Z.inj_pow. change (2 * Zpos p) with (Zpos p~0). exact Hle. }
  assert (2 ^ (k + 1) ≤ 2 ^ Zpos (Pos.size p)) by (apply Z.pow_le_mono_r; lia).
  rewrite Z.pow_add_r in * by lia. lia.
Qed.

Lemma Zdigits2_bound (m k : Z) : 0 ≤ k → 0 ≤ m < 2 ^ k → Zdigits2 m ≤ k.
Proof.
  intros Hk [Hm Hlt]. destruct m as [|p|p]; simpl; [done| |lia].
  by apply digits2_pos_bound.
Qed.

Lemma digits2_pos_gt (p : positive) : Zpos p < 2 ^ Zpos (digits2_pos p).
Proof.
  rewrite digits2_pos_size, <- Pos2Z.inj_pow. exact (Pos.size_gt p).
Qed.

Lemma digits2_pos_iter_xO (m d : positive) :
  Zpos (digits2_pos (Pos.iter xO m d)) = Zpos (digits2_pos m) + Zpos d.
Proof.
  induction d as [|d IH] using Pos.peano_ind.
  - simpl. lia.
  - rewrite Pos.iter_succ. simpl. lia.
Qed.

(** The exponent a right shift leaves. *)
Lemma shr_fexp_exponent (m e : Z) (l : location) :
  snd (shr_fexp prec emax m e l) = Z.max e (fexp prec emax (Zdigits2 m + e)).
Proof.
  unfold shr_fexp, shr.
  destruct (fexp prec emax (Zdigits2 m + e) - e) eqn:Hn; simpl; lia.
Qed.

Lemma shr_1_mantissa (mrs : shr_record) :
  0 ≤ shr_m mrs → 0 ≤ shr_m (shr_1 mrs) ≤ shr_m mrs.
Proof.
  destruct mrs as [[|[p|p|]|p] r s]; simpl; lia.
Qed.

Lemma iter_pos_shr_1_mantissa (n : positive) (mrs : shr_record) :
  0 ≤ shr_m mrs → 0 ≤ shr_m (SpecFloat.iter_pos shr_1 n mrs) ≤ shr_m mrs.
Proof.
  revert mrs. induction n as [n IH|n IH|]; intros mrs Hm; simpl.
  - pose proof (shr_1_mantissa mrs Hm).
    pose proof (IH (shr_1 mrs) ltac:(lia)).
    pose proof (IH (SpecFloat.iter_pos shr_1 n (shr_1 mrs)) ltac:(lia)). lia.
  - pose proof (IH mrs Hm).
    pose proof (IH (SpecFloat.iter_pos shr_1 n mrs) ltac:(lia)). lia.
  - by apply shr_1_mantissa.
Qed.

Lemma shr_fexp_mantissa (m e : Z) (l : location) :
  0 ≤ m → 0 ≤ shr_m (fst (shr_fexp prec emax m e l)) ≤ m.
Proof.
  intros Hm. unfold shr_fexp, shr.
  assert (shr_m (shr_record_of_loc m l) = m) as Hrec by (by destruct l as [|[]]).
  destruct (fexp prec emax (Zdigits2 m + e) - e); simpl; rewrite ?Hrec; try lia.
  pose proof (iter_pos_shr_1_mantissa p (shr_record_of_loc m l)). lia.
Qed.

Lemma round_nearest_even_bound (m : Z) (l : location) :
  0 ≤ m → 0 ≤ round_nearest_even m l ≤ m + 1.
Proof.
  intros Hm. unfold round_nearest_even.
  destruct l as [|[]]; try destruct (Z.even m); lia.
Qed.

(** Rounding a mantissa below [2^63] with an exponent of at most 10 does
    not overflow. *)
Lemma binary_round_aux_finite (sx : bool) (mx ex : Z) (s : bool) :
  0 ≤ mx < 2 ^ 63 → ex ≤ 10 →
  binary_round_aux prec emax sx mx ex loc_Exact ≠ S754_infinity s.
Proof.
  intros [Hm Hlt] Hex. unfold binary_round_aux.
  destruct (shr_fexp prec emax mx ex loc_Exact) as [mrs' e'] eqn:H1.
  pose proof (shr_fexp_exponent mx ex loc_Exact) as He'.
  pose proof (shr_fexp_mantissa mx ex loc_Exact Hm) as Hm'.
  rewrite H1 in He', Hm'. simpl in He', Hm'.
  set (m' := round_nearest_even (shr_m mrs') (loc_of_shr_record mrs')).
  pose proof (round_nearest_even_bound (shr_m mrs') (loc_of_shr_record mrs') ltac:(lia)) as Hr.
  fold m' in Hr.
  destruct (shr_fexp prec emax m' e' loc_Exact) as [mrs'' e''] eqn:H2.
  pose proof (shr_fexp_exponent m' e' loc_Exact) as He''.
  rewrite H2 in He''. simpl in He''.
  assert (Zdigits2 mx ≤ 63) as Hd by (apply Zdigits2_bound; lia).
  assert (Zdigits2 m' ≤ 64) as Hd'.
  { apply Zdigits2_bound; [lia|]. change (2 ^ 64) with (2 * 2 ^ 63). lia. }
  assert (e'' ≤ emax - prec) as Hfin.
  { unfold fexp, emin, prec, emax in *. lia. }
  destruct (shr_m mrs''); try discriminate.
  apply Z.leb_le in Hfin. rewrite Hfin. discriminate.
Qed.

(** An integer of magnitude below [2^63] converts to a float without
    overflow. *)
Lemma binary_round_finite (sx : bool) (m : positive) (s : bool) :
  Zpos m < 2 ^ 63 → binary_round prec emax sx m 0 ≠ S754_infinity s.
Proof.
  intros Hlt. unfold binary_round, shl_align.
  pose proof (digits2_pos_bound m 63 ltac:(lia) Hlt) as Hd.
  destruct (fexp prec emax (Zpos (digits2_pos m) + 0) - 0) as [|d|d] eqn:Hshift.
  - by apply binary_round_aux_finite.
  - by apply binary_round_aux_finite.
  - apply binary_round_aux_finite.
    + split; [lia|].
      pose proof (digits2_pos_gt (Pos.iter xO m d)) as Hgt.
      rewrite digits2_pos_iter_xO in Hgt.
      assert (Zpos (digits2_pos m) + Zpos d ≤ 63) as Hle.
      { unfold fexp, emin, prec, emax in Hshift. lia. }
      eapply Z.lt_le_trans; [exact Hgt|]. apply Z.pow_le_mono_r; lia.
    + unfold fexp, emin, prec, emax in *. lia.
Qed.

Lemma binary_normalize_finite (z : Z) (s : bool) :
  - 2 ^ 63 < z < 2 ^ 63 → binary_normalize prec emax z 0 false ≠ S754_infinity s.
Proof.
  intros [Hlo Hhi]. destruct z as [|m|m]; [discriminate| |].
  - by apply binary_round_finite.
  - apply binary_round_finite. lia.
Qed.

(** [ts / d] on an integer and on a float, by the binary64 operations. *)
Lemma py_truediv_float_int (z : Z) (d : float) :
  py_truediv_float (PyInt z) d =
  match binary_normalize prec emax z 0 false with
  | S754_infinity _ => Raise OverflowError
  | sf => Ok (PyFloat (SF2Prim sf / d)%float)
  end.
Proof.
  unfold py_truediv_float, py_int_to_float.
  by destruct (binary_normalize prec emax z 0 false).
Qed.

Lemma py_truediv_float_small_int (z : Z) (d : float) :
  - 2 ^ 63 < z < 2 ^ 63 →
  py_truediv_float (PyInt z) d =
  Ok (PyFloat (SF2Prim (binary_normalize prec emax z 0 false) / d)%float).
Proof.
  intros Hz. rewrite py_truediv_float_int.
  pose proof (binary_normalize_finite z) as Hfin.
  destruct (binary_normalize prec emax z 0 false) as [| s | |]; try done.
  by destruct (Hfin s Hz).
Qed.

End FloatConversion.

(** ** Timestamps *)

Section Timestamps.

Variable pd_Timestamp_timestamp : pyval → result pyval.

Lemma milliseconds_not_parsed (exchange : string) :
  exchange ∈ milliseconds_class → exchange ∉ parsed_class.
Proof.
  unfold milliseconds_class. rewrite !elem_of_cons, elem_of_nil.
  intros H. repeat (destruct H as [->|H]; [by_decide|]). done.
Qed.

Lemma microseconds_not_earlier (exchange : string) :
  exchange ∈ microseconds_class →
  (exchange ∉ parsed_class) ∧ (exchange ∉ milliseconds_class).
Proof.
  unfold microseconds_class. rewrite list_elem_of_singleton. intros ->.
  split; by_decide.
Qed.

(** The branch [timestamp_normalize] takes for each class. *)
Lemma timestamp_normalize_milliseconds (exchange : string) (ts : pyval) :
  exchange ∈ milliseconds_class →
  timestamp_normalize pd_Timestamp_timestamp exchange ts = py_truediv_float ts 1000.0%float.
Proof.
  intros Hms. pose proof (milliseconds_not_parsed _ Hms). unfold timestamp_normalize.
  rewrite bool_decide_eq_false_2 by done. by rewrite bool_decide_eq_true_2.
Qed.

Lemma timestamp_normalize_microseconds (exchange : string) (ts : pyval) :
  exchange ∈ microseconds_class →
  timestamp_normalize pd_Timestamp_timestamp exchange ts =
  py_truediv_float ts 1000000.0%float.
Proof.
  intros Hus. destruct (microseconds_not_earlier _ Hus). unfold timestamp_normalize.
  rewrite !bool_decide_eq_false_2 by done. by rewrite bool_decide_eq_true_2.
Qed.

(** C8: [timestamp_normalize] returns [ts / 1000.0] for every exchange of
    the milliseconds class, [ts / 1000000.0] for the microseconds class
    (BITSTAMP) and [ts] itself for every exchange that is in none of the
    three classes.  The quotient is the binary64 quotient: of the float
    itself for a float timestamp, and of the integer rounded to the nearest
    float (ties to even) for an integer timestamp, which never overflows
    for an integer of magnitude below [2^63].
    [timestamp_normalize(BINANCE, 1600000000000)] is [1600000000.0]. *)
#[warnings="-inexact-float"] Theorem timestamp_normalize_units (exchange : string) :
  let normalize := timestamp_normalize pd_Timestamp_timestamp exchange in
  (exchange ∈ milliseconds_class →
     (∀ f, normalize (PyFloat f) = Ok (PyFloat (f / 1000.0)%float)) ∧
     (∀ z, normalize (PyInt z) =
        match binary_normalize prec emax z 0 false with
        | S754_infinity _ => Raise OverflowError
        | sf => Ok (PyFloat (SF2Prim sf / 1000.0)%float)
        end) ∧
     (∀ z, (- 2 ^ 63 < z < 2 ^ 63)%Z →
        normalize (PyInt z) =
        Ok (PyFloat (SF2Prim (binary_normalize prec emax z 0 false) / 1000.0)%float))) ∧
  (exchange ∈ microseconds_class →
     (∀ f, normalize (PyFloat f) = Ok (PyFloat (f / 1000000.0)%float)) ∧
     (∀ z, normalize (PyInt z) =
        match binary_normalize prec emax z 0 false with
        | S754_infinity _ => Raise OverflowError
        | sf => Ok (PyFloat (SF2Prim sf / 1000000.0)%float)
        end) ∧
     (∀ z, (- 2 ^ 63 < z < 2 ^ 63)%Z →
        normalize (PyInt z) =
        Ok (PyFloat (SF2Prim (binary_normalize prec emax z 0 false) / 1000000.0)%float))) ∧
  (exchange ∉ parsed_class → exchange ∉ milliseconds_class →
   exchange ∉ microseconds_class → ∀ ts, normalize ts = Ok ts) ∧
  timestamp_normalize pd_Timestamp_timestamp "BINANCE" (PyInt 1600000000000)
    = Ok (PyFloat 1600000000.0%float) ∧
  timestamp_normalize pd_Timestamp_timestamp "BINANCE" (PyInt 1600000000123)
    = Ok (PyFloat 1600000000.123%float) ∧
  timestamp_normalize pd_Timestamp_timestamp "BITSTAMP" (PyInt 1600000000000000)
    = Ok (PyFloat 1600000000.0%float) ∧
  timestamp_normalize pd_Timestamp_timestamp "BITSTAMP" (PyFloat 1600000000123456.0%float)
    = Ok (PyFloat 1600000000.123456%float).
Proof.
  intros normalize. subst normalize.
  split; [|split; [|split; [|split; [|split; [|split]]]]].
  - intros Hms. split; [|split].
    + intros f. by rewrite timestamp_normalize_milliseconds.
    + intros z. by rewrite timestamp_normalize_milliseconds, py_truediv_float_int.
    + intros z Hz. by rewrite timestamp_normalize_milliseconds, py_truediv_float_small_int.
  - intros Hus. split; [|split].
    + intros f. by rewrite timestamp_normalize_microseconds.
    + intros z. by rewrite timestamp_normalize_microseconds, py_truediv_float_int.
    + intros z Hz. by rewrite timestamp_normalize_microseconds, py_truediv_float_small_int.
  - intros ? ? ? ts. unfold timestamp_normalize. by rewrite !bool_decide_eq_false_2.
  - vm_compute. reflexivity.
  - vm_compute. reflexivity.
  - vm_compute. reflexivity.
  - vm_compute. reflexivity.
Qed.

End Timestamps.

(** The units of C8 on exchanges of the source's classes; the parser of
    the first class plays no part. *)
Lemma timestamp_normalize_units_witness :
  timestamp_normalize (λ _, Raise TypeError) HUOBI (PyFloat 1600000000000.0%float)
    = Ok (PyFloat (1600000000000.0 / 1000.0)%float) ∧
  timestamp_normalize (λ _, Raise TypeError) BITSTAMP (PyInt 1600000000000000)
    = Ok (PyFloat (SF2Prim (binary_normalize prec emax 1600000000000000 0 false)
                   / 1000000.0)%float) ∧
  timestamp_normalize (λ _, Raise TypeError) KRAKEN (PyFloat 1600000000.5%float)
    = Ok (PyFloat 1600000000.5%float).
Proof.
  split; [|split].
  - destruct (timestamp_normalize_units (λ _, Raise TypeError) HUOBI) as (H & _).
    destruct H as (Hfloat & _); [by_decide|]. apply Hfloat.
  - destruct (timestamp_normalize_units (λ _, Raise TypeError) BITSTAMP) as (_ & H & _).
    destruct H as (_ & _ & Hint); [by_decide|]. apply Hint. split; reflexivity.
  - destruct (timestamp_normalize_units (λ _, Raise TypeError) KRAKEN) as (_ & _ & H & _).
    apply H; by_decide.
Defined.

(** ** Symbol registry: what warming keeps *)

Section Registry.

Variable gen_pairs : string → list (string * string).

Implicit Types (items : list (string * string)) (reg : registry).
Implicit Types (exchange std native : string).

Lemma last_native_of_Some items std native :
  last_native_of items std = Some native → (std, native) ∈ items.
Proof.
  induction items as [|[s x] items IH] using rev_ind; [discriminate|].
  rewrite last_native_of_snoc, elem_of_app, list_elem_of_singleton. simpl.
  case_decide as Hs.
  - intros [= <-]. right. by rewrite Hs.
  - intros H. left. by apply IH.
Qed.

Lemma last_native_of_is_Some items std :
  is_Some (last_native_of items std) ↔ std ∈ items.*1.
Proof.
  induction items as [|[s x] items IH] using rev_ind.
  - simpl. rewrite elem_of_nil. split; [by intros [? ?] | done].
  - rewrite last_native_of_snoc, fmap_app, elem_of_app. simpl.
    rewrite list_elem_of_singleton. case_decide as Hs.
    + split; [by right | by eexists].
    + rewrite IH. split; [by left | by intros [?|?]].
Qed.

Lemma last_std_of_is_Some_iff items native :
  is_Some (last_std_of items native) ↔ native ∈ items.*2.
Proof.
  induction items as [|[s x] items IH] using rev_ind.
  - simpl. rewrite elem_of_nil. split; [by intros [? ?] | done].
  - rewrite last_std_of_snoc, fmap_app, elem_of_app. simpl.
    rewrite list_elem_of_singleton. case_decide as Hx.
    + split; [by right | by eexists].
    + rewrite IH. split; [by left | by intros [?|?]].
Qed.

(** The entry of [exchange'] under any standard symbol is what the loop for
    another exchange found there. *)
Lemma forward_entry_loop_other exchange exchange' items reg std :
  exchange' ≠ exchange →
  forward_entry (foldl (load_step exchange) reg items) std exchange' =
  forward_entry reg std exchange'.
Proof.
  intros Hne. unfold forward_entry. rewrite lookup_std_trading_pairs_loop.
  destruct (last_native_of items std) as [native|]; [|done]. simpl.
  rewrite lookup_insert_ne by done.
  by destruct (_std_trading_pairs reg !! std).
Qed.

(** The entry of the loop's own exchange is the native symbol of the last
    item with that standard symbol, or the earlier entry. *)
Lemma forward_entry_loop_same exchange items reg std :
  forward_entry (foldl (load_step exchange) reg items) std exchange =
  match last_native_of items std with
  | Some native => Some native
  | None => forward_entry reg std exchange
  end.
Proof.
  unfold forward_entry. rewrite lookup_std_trading_pairs_loop.
  destruct (last_native_of items std) as [native|]; [|done]. simpl.
  by rewrite lookup_insert_eq.
Qed.

Lemma forward_entry_Some reg std exchange native :
  forward_entry reg std exchange = Some native ↔
  ∃ sub, _std_trading_pairs reg !! std = Some sub ∧ sub !! exchange = Some native.
Proof.
  unfold forward_entry. destruct (_std_trading_pairs reg !! std) as [sub|]; simpl.
  - split; [by exists sub | by intros (? & [= <-] & ?)].
  - split; [done | by intros (? & ? & ?)].
Qed.

(** [pair_std_to_exchange] for an exchange that is not exempt, read off
    the forward dictionary. *)
Lemma pair_std_to_exchange_entry reg std exchange :
  exchange ∉ exempt →
  pair_std_to_exchange reg std exchange =
  match forward_entry reg std exchange with
  | Some native => Ok native
  | None =>
      if dict_contains (_std_trading_pairs reg) std then
        Raise (UnsupportedTradingPair (std ++ " is not supported on " ++ exchange))
      else if String.eqb exchange BITFINEX && negb (str_in "-" std) then Ok ("f" ++ std)
      else Raise (UnsupportedTradingPair (std ++ " is not supported on " ++ exchange))
  end.
Proof.
  intros He. unfold pair_std_to_exchange, forward_entry, dict_contains, dict_getitem.
  rewrite bool_decide_eq_false_2 by done.
  destruct (_std_trading_pairs reg !! std) as [sub|]; simpl; [|done].
  by destruct (sub !! exchange).
Qed.

(** X1: warming one exchange leaves the translation towards every other
    exchange as it was, for every standard symbol the registry already
    knew. *)
Theorem load_keeps_other_exchanges reg exchange exchange' std :
  exchange' ≠ exchange →
  is_Some (_std_trading_pairs reg !! std) →
  pair_std_to_exchange (load_exchange_pair_mapping gen_pairs reg exchange) std exchange' =
  pair_std_to_exchange reg std exchange'.
Proof.
  intros Hne Hkey. unfold load_exchange_pair_mapping.
  case_bool_decide as He; [done|].
  destruct (decide (exchange' ∈ exempt)) as [He'|He'].
  { unfold pair_std_to_exchange. by rewrite !bool_decide_eq_true_2. }
  rewrite !pair_std_to_exchange_entry by done.
  rewrite forward_entry_loop_other by done.
  destruct (forward_entry reg std exchange'); [done|].
  rewrite (proj2 (dict_contains_true _ std) Hkey).
  assert (dict_contains
            (_std_trading_pairs (foldl (load_step exchange) reg (gen_pairs exchange))) std
          = true) as ->; [|done].
  apply dict_contains_true. rewrite lookup_std_trading_pairs_loop.
  by destruct (last_native_of (gen_pairs exchange) std).
Qed.

(** X2: warming an exchange that is not exempt removes no key: afterwards
    the keys of the forward dictionary are the earlier ones and the
    provider's standard symbols, the keys of the backward dictionary the
    earlier ones and the provider's native symbols. *)
Theorem load_grows_keys reg exchange :
  exchange ∉ exempt →
  let reg' := load_exchange_pair_mapping gen_pairs reg exchange in
  dom (_std_trading_pairs reg') =
    dom (_std_trading_pairs reg) ∪ list_to_set (gen_pairs exchange).*1 ∧
  dom (_exchange_to_std reg') =
    dom (_exchange_to_std reg) ∪ list_to_set (gen_pairs exchange).*2.
Proof.
  intros He reg'. subst reg'. unfold load_exchange_pair_mapping.
  rewrite bool_decide_eq_false_2 by done. split.
  - apply set_eq. intros std.
    rewrite elem_of_union, !elem_of_dom, elem_of_list_to_set, <- last_native_of_is_Some.
    rewrite lookup_std_trading_pairs_loop.
    destruct (last_native_of (gen_pairs exchange) std).
    + split; [by right | by eexists].
    + split; [by left | by intros [?|[? ?]]].
  - apply set_eq. intros native.
    rewrite elem_of_union, !elem_of_dom, elem_of_list_to_set, <- last_std_of_is_Some_iff.
    rewrite lookup_exchange_to_std_loop.
    destruct (last_std_of (gen_pairs exchange) native).
    + split; [by right | by eexists].
    + split; [by left | by intros [?|[? ?]]].
Qed.

End Registry.

(** ** Symbol registry: reachable registries *)

Section Reachable.

Variable gen_pairs : string → list (string * string).

Implicit Types (reg : registry) (exchange std native : string).

(** Where an entry of the registry after one call comes from. *)
Lemma load_forward_entry reg exchange std exchange' native :
  forward_entry (load_exchange_pair_mapping gen_pairs reg exchange) std exchange' = Some native →
  ((exchange ∉ exempt) ∧ exchange' = exchange ∧ (std, native) ∈ gen_pairs exchange) ∨
  forward_entry reg std exchange' = Some native.
Proof.
  unfold load_exchange_pair_mapping. case_bool_decide as He; [by right|].
  destruct (decide (exchange' = exchange)) as [->|Hne].
  - rewrite forward_entry_loop_same.
    destruct (last_native_of (gen_pairs exchange) std) as [n|] eqn:Hlast; [|by right].
    intros [= ->]. left. by apply last_native_of_Some in Hlast.
  - rewrite forward_entry_loop_other by done. by right.
Qed.

Lemma load_backward_entry reg exchange native std :
  _exchange_to_std (load_exchange_pair_mapping gen_pairs reg exchange) !! native = Some std →
  ((exchange ∉ exempt) ∧ (std, native) ∈ gen_pairs exchange) ∨
  (_exchange_to_std reg !! native = Some std ∧
   (exchange ∈ exempt ∨ native ∉ (gen_pairs exchange).*2)).
Proof.
  unfold load_exchange_pair_mapping. case_bool_decide as He; [right; by split; [|left]|].
  rewrite lookup_exchange_to_std_loop.
  destruct (last_std_of (gen_pairs exchange) native) as [s|] eqn:Hlast.
  - intros [= ->]. left. by apply last_std_of_Some in Hlast.
  - intros H. right. split; [done|]. right.
    rewrite <- last_std_of_is_Some_iff, Hlast. by intros [? ?].
Qed.

Lemma warmed_forward_from_provider reg std exchange native :
  warmed gen_pairs reg →
  forward_entry reg std exchange = Some native →
  (exchange ∉ exempt) ∧ (std, native) ∈ gen_pairs exchange.
Proof.
  intros Hw. revert std exchange native.
  induction Hw as [|reg e Hw IH]; intros std exchange native.
  - unfold forward_entry. simpl. by rewrite lookup_empty.
  - intros [(He & -> & Hin)|Hold]%load_forward_entry; [done | by apply IH].
Qed.

(** X3: in every registry the module can reach, each entry was given by
    the provider: a forward entry [std -> exchange -> native] and a
    backward entry [native -> std] are pairs of the provider's dictionary
    for an exchange that is not exempt.  Exempt exchanges never enter the
    registry. *)
Theorem warmed_entries_from_provider reg :
  warmed gen_pairs reg →
  (∀ std exchange native, forward_entry reg std exchange = Some native →
     (exchange ∉ exempt) ∧ (std, native) ∈ gen_pairs exchange) ∧
  (∀ native std, _exchange_to_std reg !! native = Some std →
     ∃ exchange, (exchange ∉ exempt) ∧ (std, native) ∈ gen_pairs exchange).
Proof.
  intros Hw. split.
  - intros std exchange native. by apply warmed_forward_from_provider.
  - induction Hw as [|reg e Hw IH]; intros native std.
    + simpl. by rewrite lookup_empty.
    + intros [[He Hin]|[Hold _]]%load_backward_entry; [by exists e | by apply IH].
Qed.

(** X4: in every registry the module can reach from a provider whose
    dictionaries have distinct keys, a native symbol the backward
    dictionary translates to [std] is what [pair_std_to_exchange] gives
    for [std] on some exchange. *)
Theorem warmed_backward_round_trip reg native std :
  (∀ exchange, NoDup (gen_pairs exchange).*1) →
  warmed gen_pairs reg →
  _exchange_to_std reg !! native = Some std →
  pair_exchange_to_std reg native = Ok (Some std) ∧
  ∃ exchange, pair_std_to_exchange reg std exchange = Ok native.
Proof.
  intros Hkeys Hw Hback. split; [by apply pair_exchange_to_std_known|].
  cut (∃ exchange, forward_entry reg std exchange = Some native).
  { intros [exchange Hentry]. exists exchange.
    destruct (warmed_forward_from_provider _ _ _ _ Hw Hentry) as [He _].
    by rewrite pair_std_to_exchange_entry, Hentry. }
  revert native std Hback. induction Hw as [|reg e Hw IH]; intros native std.
  - simpl. by rewrite lookup_empty.
  - intros [[He Hin]|[Hold Hfresh]]%load_backward_entry.
    + exists e. unfold load_exchange_pair_mapping.
      rewrite bool_decide_eq_false_2 by done.
      by rewrite forward_entry_loop_same, (last_native_of_NoDup _ _ native).
    + destruct (IH _ _ Hold) as [e0 Hentry]. exists e0.
      unfold load_exchange_pair_mapping. case_bool_decide as He; [done|].
      destruct (decide (e0 = e)) as [->|Hne].
      * rewrite forward_entry_loop_same.
        destruct (warmed_forward_from_provider _ _ _ _ Hw Hentry) as [_ Hin].
        by rewrite (last_native_of_NoDup _ _ native).
      * by rewrite forward_entry_loop_other.
Qed.

(** X5: warming two different exchanges in either order gives the same
    forward dictionary; it gives the same registry when no native symbol
    of the one provider dictionary stands for another standard symbol in
    the other. *)
Theorem load_two_exchanges_commute reg exchange1 exchange2 :
  exchange1 ≠ exchange2 →
  let reg12 := load_exchange_pair_mapping gen_pairs
                 (load_exchange_pair_mapping gen_pairs reg exchange1) exchange2 in
  let reg21 := load_exchange_pair_mapping gen_pairs
                 (load_exchange_pair_mapping gen_pairs reg exchange2) exchange1 in
  _std_trading_pairs reg12 = _std_trading_pairs reg21 ∧
  ((∀ native std1 std2, (std1, native) ∈ gen_pairs exchange1 →
      (std2, native) ∈ gen_pairs exchange2 → std1 = std2) →
   reg12 = reg21).
Proof.
  intros Hne reg12 reg21. subst reg12 reg21. unfold load_exchange_pair_mapping.
  destruct (bool_decide (exchange1 ∈ exempt)), (bool_decide (exchange2 ∈ exempt));
    try (split; done).
  assert (∀ std,
    _std_trading_pairs (foldl (load_step exchange2)
       (foldl (load_step exchange1) reg (gen_pairs exchange1)) (gen_pairs exchange2)) !! std =
    _std_trading_pairs (foldl (load_step exchange1)
       (foldl (load_step exchange2) reg (gen_pairs exchange2)) (gen_pairs exchange1)) !! std)
    as Hfwd.
  { intros std. rewrite !lookup_std_trading_pairs_loop.
    destruct (last_native_of (gen_pairs exchange1) std),
             (last_native_of (gen_pairs exchange2) std); simpl; try done.
    f_equal. by apply insert_insert_ne. }
  split; [by apply map_eq|].
  intros Hagree. apply registry_eq; [done|].
  intros native. rewrite !lookup_exchange_to_std_loop.
  destruct (last_std_of (gen_pairs exchange1) native) as [s1|] eqn:H1,
           (last_std_of (gen_pairs exchange2) native) as [s2|] eqn:H2; try done.
  f_equal. symmetry. eapply Hagree; by apply last_std_of_Some.
Qed.

(** X6: the funding form is given only while no exchange has registered
    the symbol.  For a symbol without ["-"] that the registry does not
    know, [pair_std_to_exchange] on BITFINEX returns ["f" + std]; once
    another exchange whose provider lists the symbol has been warmed, the
    same call raises UnsupportedTradingPair. *)
Theorem load_shadows_funding_symbol reg exchange std :
  exchange ∉ exempt → exchange ≠ BITFINEX →
  std ∈ (gen_pairs exchange).*1 →
  _std_trading_pairs reg !! std = None →
  str_in "-" std = false →
  pair_std_to_exchange reg std BITFINEX = Ok ("f" ++ std) ∧
  pair_std_to_exchange (load_exchange_pair_mapping gen_pairs reg exchange) std BITFINEX =
    Raise (UnsupportedTradingPair (std ++ " is not supported on " ++ BITFINEX)).
Proof.
  intros He Hne Hin Hnone Hdash.
  assert (BITFINEX ∉ exempt) as Hb by by_decide.
  rewrite !pair_std_to_exchange_entry by done. split.
  - unfold forward_entry. rewrite Hnone. simpl.
    rewrite (proj2 (dict_contains_false _ _) Hnone), Hdash. done.
  - unfold load_exchange_pair_mapping. rewrite bool_decide_eq_false_2 by done.
    rewrite forward_entry_loop_other by done.
    unfold forward_entry at 1. rewrite Hnone. simpl.
    assert (dict_contains
              (_std_trading_pairs (foldl (load_step exchange) reg (gen_pairs exchange))) std
            = true) as ->; [|done].
    apply dict_contains_true. rewrite lookup_std_trading_pairs_loop.
    apply last_native_of_is_Some in Hin as [n ->]. by eexists.
Qed.

(** X14: warming POLONIEX and subscribing by symbol compose.  After
    [load_exchange_pair_mapping(POLONIEX)], for every pair [(std, native)]
    of the provider's dictionary whose standard symbol is not a channel
    name, [feed_to_exchange(POLONIEX, std)] returns [native] and logs
    nothing. *)
Theorem load_then_poloniex_subscription reg std native silent :
  NoDup (gen_pairs POLONIEX).*1 →
  (std, native) ∈ gen_pairs POLONIEX →
  _feed_to_exchange_map !! std = None →
  feed_to_exchange (load_exchange_pair_mapping gen_pairs reg POLONIEX) POLONIEX std silent =
  (Ok (PyStr native), []).
Proof.
  intros Hkeys Hin Hfeed%dict_contains_false.
  assert (POLONIEX ∉ exempt) as Hp by by_decide.
  unfold feed_to_exchange. rewrite Hfeed. simpl.
  rewrite pair_std_to_exchange_entry by done.
  unfold load_exchange_pair_mapping. rewrite bool_decide_eq_false_2 by done.
  by rewrite forward_entry_loop_same, (last_native_of_NoDup _ _ native).
Qed.

End Reachable.

(** ** Symbol registry: failures and the funding form *)

(** The outcome of [pair_std_to_exchange] is a native symbol or
    UnsupportedTradingPair. *)
Lemma pair_std_to_exchange_outcome (reg : registry) (pair exchange : string) :
  (∃ native, pair_std_to_exchange reg pair exchange = Ok native) ∨
  pair_std_to_exchange reg pair exchange =
    Raise (UnsupportedTradingPair (pair ++ " is not supported on " ++ exchange)).
Proof.
  destruct (decide (exchange ∈ exempt)) as [He|He].
  - left. exists pair. unfold pair_std_to_exchange. by rewrite bool_decide_eq_true_2.
  - rewrite pair_std_to_exchange_entry by done.
    destruct (forward_entry reg pair exchange); [left; by eexists|].
    destruct (dict_contains _ _); [by right|].
    destruct (_ && _); [left; by eexists | by right].
Qed.

(** X7: the funding form round-trips.  For a standard symbol without ["-"]
    that the registry does not know, [pair_std_to_exchange] on BITFINEX
    gives ["f" + std], and [pair_exchange_to_std] takes that back to [std],
    provided ["f" + std] is not a native symbol of the backward
    dictionary. *)
Theorem funding_symbol_round_trip (reg : registry) (std : string) :
  str_in "-" std = false →
  _std_trading_pairs reg !! std = None →
  _exchange_to_std reg !! ("f" ++ std) = None →
  pair_std_to_exchange reg std BITFINEX = Ok ("f" ++ std) ∧
  pair_exchange_to_std reg ("f" ++ std) = Ok (Some std).
Proof.
  intros Hdash Hfwd Hbwd. split.
  - rewrite pair_std_to_exchange_entry by by_decide.
    unfold forward_entry. rewrite Hfwd. simpl.
    by rewrite (proj2 (dict_contains_false _ _) Hfwd), Hdash.
  - by apply pair_exchange_to_std_funding.
Qed.

Lemma funding_symbol_round_trip_witness :
  pair_std_to_exchange (Registry {["BTC-USD" := {[KRAKEN := "XBT/USD"]}]} {["XBT/USD" := "BTC-USD"]})
    "ETH" BITFINEX = Ok "fETH" ∧
  pair_exchange_to_std (Registry {["BTC-USD" := {[KRAKEN := "XBT/USD"]}]} {["XBT/USD" := "BTC-USD"]})
    "fETH" = Ok (Some "ETH").
Proof.
  apply (funding_symbol_round_trip
           (Registry {["BTC-USD" := {[KRAKEN := "XBT/USD"]}]} {["XBT/USD" := "BTC-USD"]}) "ETH");
    reflexivity.
Defined.

(** X8: the only failure of [pair_exchange_to_std] is IndexError on the
    empty string when the backward dictionary has no empty key; on every
    other input it returns. *)
Theorem pair_exchange_to_std_raises_iff (reg : registry) (pair : string) (e : exn) :
  pair_exchange_to_std reg pair = Raise e ↔
  pair = "" ∧ _exchange_to_std reg !! "" = None ∧ e = IndexError.
Proof.
  unfold pair_exchange_to_std.
  destruct (_exchange_to_std reg !! pair) as [std|] eqn:Hpair.
  - rewrite (dict_contains_Some _ _ _ Hpair), (dict_getitem_Some _ _ _ Hpair). simpl.
    split; [discriminate|]. intros (-> & Hnone & _). congruence.
  - rewrite (proj2 (dict_contains_false _ _) Hpair).
    destruct pair as [|c rest]; simpl.
    + split; [by intros [= <-] | by intros (_ & _ & ->)].
    + split; [by destruct (Ascii.eqb c "f") | by intros ([=] & _)].
Qed.

(** X9: [pair_std_to_exchange] raises nothing but UnsupportedTradingPair,
    with the message naming the symbol and the exchange; the KeyError of
    the inner look-up never escapes.  It raises only for an exchange that
    is not exempt and has no entry under the symbol. *)
Theorem pair_std_to_exchange_raises (reg : registry) (pair exchange : string) (e : exn) :
  pair_std_to_exchange reg pair exchange = Raise e →
  e = UnsupportedTradingPair (pair ++ " is not supported on " ++ exchange) ∧
  (exchange ∉ exempt) ∧
  forward_entry reg pair exchange = None.
Proof.
  destruct (decide (exchange ∈ exempt)) as [He|He].
  { unfold pair_std_to_exchange. by rewrite bool_decide_eq_true_2. }
  rewrite pair_std_to_exchange_entry by done.
  destruct (forward_entry reg pair exchange); [discriminate|].
  destruct (dict_contains _ _); [by intros [= <-]|].
  destruct (_ && _); [discriminate | by intros [= <-]].
Qed.

Lemma pair_std_to_exchange_raises_witness :
  UnsupportedTradingPair "BTC-USD is not supported on GEMINI" =
    UnsupportedTradingPair ("BTC-USD" ++ " is not supported on " ++ GEMINI) ∧
  (GEMINI ∉ exempt) ∧
  forward_entry (Registry {["BTC-USD" := {[KRAKEN := "XBT/USD"]}]} ∅) "BTC-USD" GEMINI = None.
Proof.
  apply (pair_std_to_exchange_raises
           (Registry {["BTC-USD" := {[KRAKEN := "XBT/USD"]}]} ∅) "BTC-USD" GEMINI).
  reflexivity.
Defined.

(** ** Channel translation: failures, log and table coverage *)

(** [feed_to_exchange] when the feed is a key of the channel table. *)
Lemma feed_to_exchange_channel (reg : registry) (exchange feed : string) (silent : bool) :
  (exchange ≠ POLONIEX ∨ is_Some (_feed_to_exchange_map !! feed)) →
  feed_to_exchange reg exchange feed silent =
  match table_entry _feed_to_exchange_map feed exchange with
  | Some ret =>
      if py_eq_str ret UNSUPPORTED then raise_error exchange feed silent else (Ok ret, [])
  | None => raise_error exchange feed silent
  end.
Proof.
  intros Hcase. unfold feed_to_exchange.
  assert (String.eqb exchange POLONIEX && negb (dict_contains _feed_to_exchange_map feed)
          = false) as ->.
  { destruct Hcase as [Hne%String.eqb_neq|Hkey%dict_contains_true].
    - by rewrite Hne.
    - by rewrite Hkey, andb_false_r. }
  rewrite feed_lookup_entry.
  by destruct (table_entry _feed_to_exchange_map feed exchange).
Qed.

(** X10: [feed_to_exchange] raises UnsupportedDataFeed, with the message
    naming the feed and the exchange, or, for POLONIEX and a feed that is
    no key of the channel table, the UnsupportedTradingPair of
    [pair_std_to_exchange]; no KeyError escapes. *)
Theorem feed_to_exchange_raises (reg : registry) (exchange feed : string) (silent : bool)
    (e : exn) :
  (feed_to_exchange reg exchange feed silent).1 = Raise e →
  e = UnsupportedDataFeed (feed ++ " is not currently supported on " ++ exchange) ∨
  (exchange = POLONIEX ∧ _feed_to_exchange_map !! feed = None ∧
   e = UnsupportedTradingPair (feed ++ " is not supported on " ++ POLONIEX)).
Proof.
  destruct (decide (exchange = POLONIEX ∧ _feed_to_exchange_map !! feed = None))
    as [[-> Hnone]|Hcase].
  - pose proof Hnone as Hc%dict_contains_false.
    unfold feed_to_exchange. rewrite Hc. simpl.
    destruct (pair_std_to_exchange_outcome reg feed POLONIEX) as [[native ->]| ->]; simpl.
    + discriminate.
    + intros [= <-]. by right.
  - rewrite feed_to_exchange_channel.
    + destruct (table_entry _ _ _) as [ret|]; [destruct (py_eq_str _ _)|]; simpl;
        first [discriminate | intros [= <-]; by left].
    + destruct (decide (exchange = POLONIEX)) as [->|?]; [|by left].
      right. destruct (_feed_to_exchange_map !! feed); [done|]. by destruct Hcase.
Qed.

Lemma feed_to_exchange_raises_witness :
  UnsupportedTradingPair "BTC-USDT is not supported on POLONIEX" =
    UnsupportedDataFeed ("BTC-USDT" ++ " is not currently supported on " ++ POLONIEX) ∨
  (POLONIEX = POLONIEX ∧ _feed_to_exchange_map !! "BTC-USDT" = None ∧
   UnsupportedTradingPair "BTC-USDT is not supported on POLONIEX" =
     UnsupportedTradingPair ("BTC-USDT" ++ " is not supported on " ++ POLONIEX)).
Proof.
  apply (feed_to_exchange_raises empty_registry POLONIEX "BTC-USDT" false).
  reflexivity.
Defined.

(** X11: a call that is not silent logs exactly one record, carrying the
    exception, when it raises UnsupportedDataFeed, and nothing otherwise:
    neither a returned channel nor the UnsupportedTradingPair of a POLONIEX
    symbol is logged. *)
Theorem feed_to_exchange_log (reg : registry) (exchange feed : string) :
  (feed_to_exchange reg exchange feed false).2 =
  match (feed_to_exchange reg exchange feed false).1 with
  | Raise (UnsupportedDataFeed msg) => [LogError "Error: %r" (UnsupportedDataFeed msg)]
  | _ => []
  end.
Proof.
  destruct (decide (exchange = POLONIEX ∧ _feed_to_exchange_map !! feed = None))
    as [[-> Hnone]|Hcase].
  - pose proof Hnone as Hc%dict_contains_false.
    unfold feed_to_exchange. rewrite Hc. simpl.
    by destruct (pair_std_to_exchange_outcome reg feed POLONIEX) as [[native ->]| ->].
  - rewrite feed_to_exchange_channel.
    + by destruct (table_entry _ _ _) as [ret|]; [destruct (py_eq_str _ _)|].
    + destruct (decide (exchange = POLONIEX)) as [->|?]; [|by left].
      right. destruct (_feed_to_exchange_map !! feed); [done|]. by destruct Hcase.
Qed.

(** Each exchange of the channel table has a usable channel for both
    L2_BOOK and TRADES. *)
Lemma book_and_trades_everywhere :
  map_Forall (λ _ sub, map_Forall (λ exchange _,
    has_channel L2_BOOK exchange && has_channel TRADES exchange = true) sub)
    _feed_to_exchange_map.
Proof. by_decide. Qed.

(** X12: every exchange the channel table mentions under any feed has a
    usable order-book and trades channel: [feed_to_exchange] returns for
    L2_BOOK and for TRADES on each of them. *)
Theorem listed_exchange_has_book_and_trades (reg : registry) (exchange feed : string)
    (silent : bool) :
  is_Some (table_entry _feed_to_exchange_map feed exchange) →
  ∃ book trades,
    feed_to_exchange reg exchange L2_BOOK silent = (Ok book, []) ∧
    feed_to_exchange reg exchange TRADES silent = (Ok trades, []).
Proof.
  intros [v (sub & Hsub & Hv)%table_entry_Some].
  pose proof (book_and_trades_everywhere feed sub Hsub exchange v Hv) as Hall.
  simpl in Hall. apply andb_true_iff in Hall as [Hb Ht]. unfold has_channel in Hb, Ht.
  destruct (table_entry _feed_to_exchange_map L2_BOOK exchange) as [book|] eqn:Hbook;
    [|discriminate].
  destruct (table_entry _feed_to_exchange_map TRADES exchange) as [trades|] eqn:Htrades;
    [|discriminate].
  apply negb_true_iff in Hb, Ht.
  exists book, trades. split.
  - rewrite feed_to_exchange_channel by (right; by_decide). by rewrite Hbook, Hb.
  - rewrite feed_to_exchange_channel by (right; by_decide). by rewrite Htrades, Ht.
Qed.

Lemma listed_exchange_has_book_and_trades_witness :
  ∃ book trades,
    feed_to_exchange empty_registry HUOBI_SWAP L2_BOOK true = (Ok book, []) ∧
    feed_to_exchange empty_registry HUOBI_SWAP TRADES true = (Ok trades, []).
Proof.
  apply (listed_exchange_has_book_and_trades empty_registry HUOBI_SWAP FUNDING true).
  by_decide.
Defined.

(** ** Trading options: table coverage *)

(** The exchanges of the option table. *)
Lemma option_table_exchanges :
  map_Forall (λ _ sub, map_Forall (λ exchange _,
    exchange ∈ [KRAKEN; GEMINI; POLONIEX; COINBASE; BLOCKCHAIN]) sub) _exchange_options.
Proof. by_decide. Qed.

Lemma normalize_trading_options_Ok (exchange option : string) (v : pyval) :
  normalize_trading_options exchange option = Ok v →
  table_entry _exchange_options option exchange = Some v.
Proof.
  unfold normalize_trading_options, table_entry.
  destruct (_exchange_options !! option) as [sub|] eqn:Hopt.
  - rewrite (dict_contains_Some _ _ _ Hopt), (dict_getitem_Some _ _ _ Hopt). simpl.
    destruct (sub !! exchange) as [w|] eqn:Hw.
    + rewrite (dict_contains_Some _ _ _ Hw), (dict_getitem_Some _ _ _ Hw). simpl.
      destruct (py_eq_str w UNSUPPORTED); [discriminate | congruence].
    + by rewrite (proj2 (dict_contains_false _ _) Hw).
  - by rewrite (proj2 (dict_contains_false _ _) Hopt).
Qed.

Lemma normalize_trading_options_Raise (exchange option : string) (e : exn) :
  normalize_trading_options exchange option = Raise e → e = UnsupportedTradingOption.
Proof.
  unfold normalize_trading_options.
  destruct (_exchange_options !! option) as [sub|] eqn:Hopt.
  - rewrite (dict_contains_Some _ _ _ Hopt), (dict_getitem_Some _ _ _ Hopt). simpl.
    destruct (sub !! exchange) as [w|] eqn:Hw.
    + rewrite (dict_contains_Some _ _ _ Hw), (dict_getitem_Some _ _ _ Hw). simpl.
      destruct (py_eq_str w UNSUPPORTED); [congruence | discriminate].
    + rewrite (proj2 (dict_contains_false _ _) Hw). simpl. congruence.
  - rewrite (proj2 (dict_contains_false _ _) Hopt). simpl. congruence.
Qed.

(** X13: [normalize_trading_options] returns a value for some option
    exactly on KRAKEN, GEMINI, POLONIEX, COINBASE and BLOCKCHAIN; for every
    other exchange it raises UnsupportedTradingOption whatever the option.
    Each of the five accepts LIMIT. *)
Theorem normalize_trading_options_exchanges (exchange : string) :
  ((∃ option v, normalize_trading_options exchange option = Ok v) ↔
   exchange ∈ [KRAKEN; GEMINI; POLONIEX; COINBASE; BLOCKCHAIN]) ∧
  (exchange ∈ [KRAKEN; GEMINI; POLONIEX; COINBASE; BLOCKCHAIN] →
   ∃ v, normalize_trading_options exchange LIMIT = Ok v) ∧
  (exchange ∉ [KRAKEN; GEMINI; POLONIEX; COINBASE; BLOCKCHAIN] →
   ∀ option, normalize_trading_options exchange option = Raise UnsupportedTradingOption).
Proof.
  assert (exchange ∈ [KRAKEN; GEMINI; POLONIEX; COINBASE; BLOCKCHAIN] →
          ∃ v, normalize_trading_options exchange LIMIT = Ok v) as Hlimit.
  { rewrite !elem_of_cons, elem_of_nil.
    intros [->|[->|[->|[->|[->|[]]]]]]; by eexists. }
  assert (∀ option v, normalize_trading_options exchange option = Ok v →
          exchange ∈ [KRAKEN; GEMINI; POLONIEX; COINBASE; BLOCKCHAIN]) as Hfive.
  { intros option v (sub & Hsub & Hv)%normalize_trading_options_Ok%table_entry_Some.
    exact (option_table_exchanges option sub Hsub exchange v Hv). }
  split; [|split].
  - split.
    + intros (option & v & Hok). by eapply Hfive.
    + intros [v Hok]%Hlimit. by exists LIMIT, v.
  - done.
  - intros Hout option.
    destruct (normalize_trading_options exchange option) as [v|e] eqn:Hr.
    + exfalso. apply Hout. by eapply Hfive.
    + by apply normalize_trading_options_Raise in Hr as ->.
Qed.

Lemma normalize_trading_options_exchanges_witness :
  (∃ v, normalize_trading_options GEMINI LIMIT = Ok v) ∧
  (∀ option, normalize_trading_options BINANCE option = Raise UnsupportedTradingOption).
Proof.
  destruct (normalize_trading_options_exchanges GEMINI) as (_ & Hlimit & _).
  destruct (normalize_trading_options_exchanges BINANCE) as (_ & _ & Hout).
  split; [apply Hlimit | apply Hout]; by_decide.
Defined.

(** ** Timestamps: failures *)

Lemma py_truediv_float_Raise (ts : pyval) (d : float) (e : exn) :
  py_truediv_float ts d = Raise e →
  (e = TypeError ∧ (∀ z, ts ≠ PyInt z) ∧ (∀ f, ts ≠ PyFloat f)) ∨
  (e = OverflowError ∧ ∃ z, ts = PyInt z).
Proof.
  destruct ts as [|s|z|f|items]; simpl;
    try (intros [= <-]; left; by repeat split).
  unfold py_int_to_float.
  destruct (binary_normalize prec emax z 0 false); simpl; try discriminate.
  intros [= <-]. right. split; [done | by exists z].
Qed.

(** X15: outside the parsed class [timestamp_normalize] fails only in the
    two unit classes, and only in two ways: TypeError when the timestamp
    is neither an integer nor a float, OverflowError when it is an integer
    too large for a float.  A float timestamp never fails, and an exchange
    of no class never fails. *)
Theorem timestamp_normalize_failures (pd_Timestamp_timestamp : pyval → result pyval)
    (exchange : string) (ts : pyval) (e : exn) :
  exchange ∉ parsed_class →
  timestamp_normalize pd_Timestamp_timestamp exchange ts = Raise e →
  (exchange ∈ milliseconds_class ∨ exchange ∈ microseconds_class) ∧
  ((e = TypeError ∧ (∀ z, ts ≠ PyInt z) ∧ (∀ f, ts ≠ PyFloat f)) ∨
   (e = OverflowError ∧ ∃ z, ts = PyInt z)).
Proof.
  intros Hparsed. unfold timestamp_normalize.
  rewrite bool_decide_eq_false_2 by done.
  case_bool_decide as Hms.
  - intros H%py_truediv_float_Raise. split; [by left | done].
  - case_bool_decide as Hus; [|discriminate].
    intros H%py_truediv_float_Raise. split; [by right | done].
Qed.

Lemma timestamp_normalize_failures_witness :
  (BITSTAMP ∈ milliseconds_class ∨ BITSTAMP ∈ microseconds_class) ∧
  ((TypeError = TypeError ∧ (∀ z, PyStr "2020-09-13T12:26:40Z" ≠ PyInt z) ∧
    (∀ f, PyStr "2020-09-13T12:26:40Z" ≠ PyFloat f)) ∨
   (TypeError = OverflowError ∧ ∃ z, PyStr "2020-09-13T12:26:40Z" = PyInt z)).
Proof.
  apply (timestamp_normalize_failures (λ ts, Ok ts) BITSTAMP (PyStr "2020-09-13T12:26:40Z")).
  - by_decide.
  - reflexivity.
Defined.

(** ** Witnesses on the sample provider *)

Lemma sample_pairs_keys (exchange : string) : NoDup (sample_pairs exchange).*1.
Proof.
  unfold sample_pairs. repeat case_match; by_decide.
Qed.

Lemma load_keeps_other_exchanges_witness :
  pair_std_to_exchange
    (load_exchange_pair_mapping sample_pairs
       (load_exchange_pair_mapping sample_pairs empty_registry KRAKEN) GEMINI)
    "BTC-USD" KRAKEN =
  pair_std_to_exchange
    (load_exchange_pair_mapping sample_pairs empty_registry KRAKEN) "BTC-USD" KRAKEN.
Proof.
  apply (load_keeps_other_exchanges sample_pairs
           (load_exchange_pair_mapping sample_pairs empty_registry KRAKEN) GEMINI KRAKEN
           "BTC-USD").
  - discriminate.
  - by_decide.
Defined.

Lemma load_grows_keys_witness :
  dom (_std_trading_pairs (load_exchange_pair_mapping sample_pairs empty_registry KRAKEN)) =
    dom (_std_trading_pairs empty_registry) ∪ list_to_set (sample_pairs KRAKEN).*1 ∧
  dom (_exchange_to_std (load_exchange_pair_mapping sample_pairs empty_registry KRAKEN)) =
    dom (_exchange_to_std empty_registry) ∪ list_to_set (sample_pairs KRAKEN).*2.
Proof.
  apply (load_grows_keys sample_pairs empty_registry KRAKEN). by_decide.
Defined.

Lemma warmed_entries_from_provider_witness :
  (∀ std exchange native,
     forward_entry
       (load_exchange_pair_mapping sample_pairs
          (load_exchange_pair_mapping sample_pairs empty_registry KRAKEN) POLONIEX)
       std exchange = Some native →
     (exchange ∉ exempt) ∧ (std, native) ∈ sample_pairs exchange) ∧
  (∀ native std,
     _exchange_to_std
       (load_exchange_pair_mapping sample_pairs
          (load_exchange_pair_mapping sample_pairs empty_registry KRAKEN) POLONIEX)
       !! native = Some std →
     ∃ exchange, (exchange ∉ exempt) ∧ (std, native) ∈ sample_pairs exchange).
Proof.
  apply (warmed_entries_from_provider sample_pairs).
  apply warmed_load, warmed_load, warmed_start.
Defined.

Lemma warmed_backward_round_trip_witness :
  pair_exchange_to_std
    (load_exchange_pair_mapping sample_pairs
       (load_exchange_pair_mapping sample_pairs empty_registry KRAKEN) GEMINI) "XBT/USD"
    = Ok (Some "BTC-USD") ∧
  ∃ exchange,
    pair_std_to_exchange
      (load_exchange_pair_mapping sample_pairs
         (load_exchange_pair_mapping sample_pairs empty_registry KRAKEN) GEMINI)
      "BTC-USD" exchange = Ok "XBT/USD".
Proof.
  apply (warmed_backward_round_trip sample_pairs).
  - exact sample_pairs_keys.
  - apply warmed_load, warmed_load, warmed_start.
  - reflexivity.
Defined.

Lemma load_two_exchanges_commute_witness :
  load_exchange_pair_mapping sample_pairs
    (load_exchange_pair_mapping sample_pairs empty_registry KRAKEN) POLONIEX =
  load_exchange_pair_mapping sample_pairs
    (load_exchange_pair_mapping sample_pairs empty_registry POLONIEX) KRAKEN.
Proof.
  apply (load_two_exchanges_commute sample_pairs empty_registry KRAKEN POLONIEX).
  - discriminate.
  - intros native std1 std2 H1 H2.
    change (sample_pairs POLONIEX) with [("BTC-USDT", "USDT_BTC")] in H2.
    change (sample_pairs KRAKEN) with [("BTC-USD", "XBT/USD"); ("BTC", "XBT")] in H1.
    apply list_elem_of_singleton in H2 as [= -> ->].
    apply elem_of_cons in H1 as [[=]|H1].
    apply list_elem_of_singleton in H1 as [=].
Defined.

Lemma load_shadows_funding_symbol_witness :
  pair_std_to_exchange empty_registry "BTC" BITFINEX = Ok ("f" ++ "BTC") ∧
  pair_std_to_exchange (load_exchange_pair_mapping sample_pairs empty_registry KRAKEN)
    "BTC" BITFINEX =
    Raise (UnsupportedTradingPair ("BTC" ++ " is not supported on " ++ BITFINEX)).
Proof.
  apply (load_shadows_funding_symbol sample_pairs empty_registry KRAKEN "BTC").
  - by_decide.
  - discriminate.
  - by_decide.
  - reflexivity.
  - reflexivity.
Defined.

Lemma load_then_poloniex_subscription_witness :
  feed_to_exchange (load_exchange_pair_mapping sample_pairs empty_registry POLONIEX)
    POLONIEX "BTC-USDT" false = (Ok (PyStr "USDT_BTC"), []).
Proof.
  apply (load_then_poloniex_subscription sample_pairs empty_registry "BTC-USDT" "USDT_BTC" false).
  - apply sample_pairs_keys.
  - by_decide.
  - reflexivity.
Defined.
